(** * Zag-NetStats: a shallow embedding of [cmd/main.go]

    The program polls the byte counters of one network interface at a fixed
    interval, turns the differences into a speed and a usage figure with a
    binary (1024-based) unit, and prints them as a table row or a JSON line.

    Data is modelled as the Go source has it:
    - [uint64] counters are integers in [0, 2^64) with the wrap-around of
      [-] and [+] written out ([sub64], [add64]);
    - [int] flags are integers;
    - [float64] is IEEE-754 binary64, given by the [spec_float] type of the
      standard library with precision 53 and round-to-nearest-even, so every
      operation below computes the value the Go program computes;
    - the polling loop is a function of the list of wake-ups the [select]
      statement receives. *)

From Stdlib Require Import ZArith List String Bool Lia Sorted.
From Stdlib Require Import Floats.SpecFloat Floats.FloatOps Floats.PrimFloat.
Import ListNotations.

Local Open Scope string_scope.
Local Open Scope list_scope.
Local Open Scope Z_scope.

(** ** IEEE-754 binary64 *)

Definition float64 : Type := spec_float.

Module F64.

(** Conversion of an integer ([float64(x)] for [x] of type [uint64] or
    [int]): the nearest binary64, ties to even. *)
Definition of_Z (z : Z) : float64 := binary_normalize prec emax z 0 false.

Definition mul (x y : float64) : float64 := SFmul prec emax x y.
Definition div (x y : float64) : float64 := SFdiv prec emax x y.

(** Go's [x >= y] on floats: false as soon as one side is NaN. *)
Definition geb (x y : float64) : bool := SFleb y x.
Definition ltb (x y : float64) : bool := SFltb x y.

Definition zero : float64 := S754_zero false.
Definition one : float64 := of_Z 1.

(** The sign bit is set: the value prints with a leading minus sign. *)
Definition signbit (x : float64) : bool :=
  match x with
  | S754_zero s | S754_infinity s | S754_finite s _ _ => s
  | S754_nan => false
  end.

Definition is_nan (x : float64) : bool :=
  match x with S754_nan => true | _ => false end.

(** Neither NaN nor carrying a minus sign: what is printed is a number
    without a leading minus. *)
Definition nonneg (x : float64) : bool := negb (is_nan x) && negb (signbit x).

(** [math.Pow(10, float64(n))] for an integer [n]. Powers of ten up to
    [10^22] are binary64 values and [math.Pow] returns them exactly; the
    program only admits [0 <= n <= 6]. *)
Definition pow10 (n : Z) : float64 :=
  if 0 <=? n then of_Z (10 ^ n) else div one (of_Z (10 ^ (- n))).

(** [math.Round]: the nearest integer, halves away from zero; zeros,
    infinities, NaN and values without a fractional part are returned
    unchanged. A finite [m * 2^e] with [e < 0] has [-e] fractional bits. *)
Definition Round (x : float64) : float64 :=
  match x with
  | S754_finite s m e =>
      if 0 <=? e then x
      else
        let q := (Zpos m + 2 ^ (- e - 1)) / 2 ^ (- e) in
        binary_normalize prec emax (cond_Zopp s q) 0 s
  | _ => x
  end.

End F64.

(** ** Unsigned 64-bit arithmetic *)

Definition two64 : Z := 2 ^ 64.

Definition wrap64 (z : Z) : Z := z mod two64.

(** [a - b] and [a + b] on [uint64]. *)
Definition sub64 (a b : Z) : Z := wrap64 (a - b).
Definition add64 (a b : Z) : Z := wrap64 (a + b).

Definition is_uint64 (z : Z) : Prop := 0 <= z < two64.

(** The range of Go's [int] on the 64-bit platforms the tool is built for. *)
Definition is_int (z : Z) : Prop := - 2 ^ 63 <= z < 2 ^ 63.

(** ** Constants and records of [main.go] *)

Definition KB : float64 := F64.of_Z 1024.
Definition MB : float64 := F64.of_Z (1024 * 1024).
Definition GB : float64 := F64.of_Z (1024 * 1024 * 1024).

Record Speed : Type := mkSpeed { SpeedValue : float64; SpeedUnit : string }.

Record Usage : Type := mkUsage { UsageValue : float64; UsageUnit : string }.

Record NetStats : Type := mkNetStats {
  Interface : string;
  SentSpeed : Speed;
  RecvSpeed : Speed;
  TotalSent : Usage;
  TotalRecv : Usage;
  TotalUsage : Usage
}.

(** The zero value of [NetStats], which [nm.stats] holds before the first
    successful tick. *)
Definition zeroStats : NetStats :=
  mkNetStats "" (mkSpeed F64.zero "") (mkSpeed F64.zero "")
             (mkUsage F64.zero "") (mkUsage F64.zero "") (mkUsage F64.zero "").

(** [NetworkMonitor]. The [interrupt] channel is the [Interrupt] wake-up of
    the loop below; the mutex guards [stats], which only the loop writes. *)
Record NetworkMonitor : Type := mkMonitor {
  interfaceName : string;
  refreshInterval : Z;
  precision : Z;
  format : string;
  stats : NetStats
}.

Definition NewNetworkMonitor (iface : string) (interval prec : Z) (fmt : string)
  : NetworkMonitor :=
  mkMonitor iface interval prec fmt zeroStats.

(** ** The unit scaler *)

Definition round (value : float64) (precision : Z) : float64 :=
  let multiplier := F64.pow10 precision in
  F64.div (F64.Round (F64.mul value multiplier)) multiplier.

Definition calculateSpeed (bytes interval precision : Z) : Speed :=
  let speed := F64.div (F64.of_Z bytes) (F64.of_Z interval) in
  if F64.geb speed GB then mkSpeed (round (F64.div speed GB) precision) "GB/s"
  else if F64.geb speed MB then mkSpeed (round (F64.div speed MB) precision) "MB/s"
  else if F64.geb speed KB then mkSpeed (round (F64.div speed KB) precision) "KB/s"
  else mkSpeed (round speed precision) "B/s".

Definition calculateUsage (bytes precision : Z) : Usage :=
  let usage := F64.of_Z bytes in
  if F64.geb usage GB then mkUsage (round (F64.div usage GB) precision) "GB"
  else if F64.geb usage MB then mkUsage (round (F64.div usage MB) precision) "MB"
  else if F64.geb usage KB then mkUsage (round (F64.div usage KB) precision) "KB"
  else mkUsage (round usage precision) "B".

(** ** The counter source *)

(** The fields of gopsutil's [net.IOCountersStat] the program reads. *)
Record IOCountersStat : Type := mkIO {
  Name : string;
  BytesSent : Z;
  BytesRecv : Z
}.

Inductive result (A : Type) : Type :=
| Ok (a : A)
| Err (e : string).
Arguments Ok {A} a.
Arguments Err {A} e.

(** What one call of [net.IOCounters(true)] answers: the counters of every
    interface present, or an error. *)
Definition OSReply : Type := result (list IOCountersStat).

Definition getInterfaceIOCounters (os : OSReply) (ifaceName : string)
  : result IOCountersStat :=
  match os with
  | Err e => Err e
  | Ok netIO =>
      match find (fun io => String.eqb (Name io) ifaceName) netIO with
      | Some io => Ok io
      | None => Err ("interface not found: " ++ ifaceName)%string
      end
  end.

(** ** Output *)

(** What the program writes on standard output, one entry per call of a
    renderer or of [fmt.Print]. The renderers receive the snapshot as
    computed. [Table s precision] stands for everything one call of
    [printTable] writes: a bordered table of several lines (border, header,
    separator, one data row, border) whose data row shows the interface
    name and each value with [precision] decimals next to its unit.
    [JSON s] stands for the line [printJSON] writes for the marshalled
    record. The text of a rendering is not modelled, only which renderer
    was called with which snapshot. *)
Inductive Output : Type :=
| Table (s : NetStats) (precision : Z)
| JSON (s : NetStats)
| Text (s : string).

Definition printTable (s : NetStats) (precision : Z) : Output := Table s precision.
Definition printJSON (s : NetStats) : Output := JSON s.

(** The snapshot a rendering shows, if the entry is one. *)
Definition rendered (o : Output) : option NetStats :=
  match o with
  | Table s _ | JSON s => Some s
  | Text _ => None
  end.

(** ** The polling loop *)

(** The local variables of one successful iteration, before scaling. *)
Record RawTick : Type := mkRaw {
  sentBytes : Z;
  recvBytes : Z;
  totalSent : Z;
  totalRecv : Z
}.

(** The state of [collectStats] between two iterations, together with the
    effects so far: the renderings written to standard output, the messages
    given to the logger (standard error) and the number of counter queries
    made. *)
Record Loop : Type := mkLoop {
  nm : NetworkMonitor;
  totalSentStart : Z;
  totalRecvStart : Z;
  prevNetIO : IOCountersStat;
  stdout : list Output;
  stderr : list string;
  queries : nat
}.

Definition rawTick (st : Loop) (currentNetIO : IOCountersStat) : RawTick :=
  mkRaw (sub64 (BytesSent currentNetIO) (BytesSent (prevNetIO st)))
        (sub64 (BytesRecv currentNetIO) (BytesRecv (prevNetIO st)))
        (sub64 (BytesSent currentNetIO) (totalSentStart st))
        (sub64 (BytesRecv currentNetIO) (totalRecvStart st)).

Definition mkStats (m : NetworkMonitor) (r : RawTick) : NetStats :=
  mkNetStats (interfaceName m)
    (calculateSpeed (sentBytes r) (refreshInterval m) (precision m))
    (calculateSpeed (recvBytes r) (refreshInterval m) (precision m))
    (calculateUsage (totalSent r) (precision m))
    (calculateUsage (totalRecv r) (precision m))
    (calculateUsage (add64 (totalSent r) (totalRecv r)) (precision m)).

Definition setStats (m : NetworkMonitor) (s : NetStats) : NetworkMonitor :=
  mkMonitor (interfaceName m) (refreshInterval m) (precision m) (format m) s.

Definition render (m : NetworkMonitor) (s : NetStats) : Output :=
  if String.eqb (format m) "table" then printTable s (precision m) else printJSON s.

(** The body of [case <-ticker.C], given the answer of the counter source. *)
Definition onTick (st : Loop) (os : OSReply) : Loop :=
  match getInterfaceIOCounters os (interfaceName (nm st)) with
  | Err e =>
      mkLoop (nm st) (totalSentStart st) (totalRecvStart st) (prevNetIO st)
             (stdout st)
             (stderr st ++ [("Error getting network stats: " ++ e)%string])
             (S (queries st))
  | Ok currentNetIO =>
      let s := mkStats (nm st) (rawTick st currentNetIO) in
      mkLoop (setStats (nm st) s) (totalSentStart st) (totalRecvStart st)
             currentNetIO
             (stdout st ++ [render (nm st) s])
             (stderr st)
             (S (queries st))
  end.

(** A wake-up of the [select]: the ticker fired (with what the counter
    source will answer) or a signal arrived on [nm.interrupt]. *)
Inductive Event : Type :=
| Tick (os : OSReply)
| Interrupt.

(** How [collectStats] stands after the wake-ups received so far. *)
Inductive Status : Type :=
| Running
| Returned (err : option string).

Fixpoint loop (st : Loop) (evs : list Event) : Status * Loop :=
  match evs with
  | [] => (Running, st)
  | Interrupt :: _ => (Returned None, st)
  | Tick os :: rest => loop (onTick st os) rest
  end.

(** The state the loop is entered with after a successful initial query. *)
Definition enter (m : NetworkMonitor) (initialNetIO : IOCountersStat)
    (out : list Output) (log : list string) : Loop :=
  mkLoop m (BytesSent initialNetIO) (BytesRecv initialNetIO) initialNetIO
         out log 1%nat.

(** [collectStats]: the initial query, then the loop. Between the two the
    source creates the ticker with [time.NewTicker], which panics when the
    period is not positive; [main] only calls [collectStats] with an
    interval from 1 to 3600, and the model covers such monitors. *)
Definition collectStats (m : NetworkMonitor) (out : list Output)
    (log : list string) (init : OSReply) (evs : list Event) : Status * Loop :=
  match getInterfaceIOCounters init (interfaceName m) with
  | Err e =>
      (Returned (Some ("error getting initial network stats: " ++ e)%string),
       mkLoop m 0 0 (mkIO "" 0 0) out log 1%nat)
  | Ok initialNetIO => loop (enter m initialNetIO out log) evs
  end.

(** ** [main] *)

(** The values of the four flags after [flag.Parse]. *)
Record Flags : Type := mkFlags {
  flag_i : string;
  flag_t : Z;
  flag_p : Z;
  flag_f : string
}.

Definition defaultFlags : Flags := mkFlags "" 1 2 "table".

(** What the process has done when it exits, or so far while it runs. *)
Record Process : Type := mkProcess {
  exitCode : option Z;
  pStdout : list Output;
  pStderr : list string;
  pQueries : nat
}.

(** [log.Fatal]: the message goes to standard error and the process exits
    with status 1. *)
Definition logFatal (out : list Output) (log : list string) (msg : string)
    (q : nat) : Process :=
  mkProcess (Some 1) out (log ++ [msg]) q.

Definition usageText : string :=
  "Usage of zag-netStats: -i string  -t int  -p int  -f string".

Definition main (fl : Flags) (init : OSReply) (evs : list Event) : Process :=
  if String.eqb (flag_i fl) "" then
    logFatal [Text "
"] [usageText]
      "Error: the -i (interface) flag is required.
Usage: ./zag-netStats -i <interface_name> -t <interval> -p <precision> -f <format>"
      0
  else if (flag_p fl <? 0) || (flag_p fl >? 6) then
    logFatal [] [] "Precision must be between 0 and 6 decimal places" 0
  else if (flag_t fl <=? 0) || (flag_t fl >? 3600) then
    logFatal [] [] "Refresh interval must be between 1 and 3600 seconds" 0
  else if negb (String.eqb (flag_f fl) "json") && negb (String.eqb (flag_f fl) "table") then
    logFatal [] [] "Invalid output format. Allowed values: json, table" 0
  else
    let monitor := NewNetworkMonitor (flag_i fl) (flag_t fl) (flag_p fl) (flag_f fl) in
    match collectStats monitor [] [] init evs with
    | (Returned (Some err), st) =>
        logFatal (stdout st) (stderr st) ("Network monitoring error: " ++ err)%string
                 (queries st)
    | (Returned None, st) =>
        mkProcess (Some 0) (stdout st) (stderr st) (queries st)
    | (Running, st) =>
        mkProcess None (stdout st) (stderr st) (queries st)
    end.

(** ** Observations used in the statements *)

(** The raw quantities of every successful iteration, in order, when the
    ticker fires with the given answers of the counter source. *)
Fixpoint rawTrace (st : Loop) (oss : list OSReply) : list RawTick :=
  match oss with
  | [] => []
  | os :: rest =>
      match getInterfaceIOCounters os (interfaceName (nm st)) with
      | Ok cur => rawTick st cur :: rawTrace (onTick st os) rest
      | Err _ => rawTrace (onTick st os) rest
      end
  end.

(** The counters read by the successful queries among [oss]. *)
Fixpoint readings (ifaceName : string) (oss : list OSReply) : list IOCountersStat :=
  match oss with
  | [] => []
  | os :: rest =>
      match getInterfaceIOCounters os ifaceName with
      | Ok cur => cur :: readings ifaceName rest
      | Err _ => readings ifaceName rest
      end
  end.

(** A loop just entered on interface eth0 with baseline counters 100 (sent)
    and 0 (received), interval 1 s, precision 2, JSON output. *)
Definition exampleLoop : Loop :=
  enter (NewNetworkMonitor "eth0" 1 2 "json") (mkIO "eth0" 100 0) [] [].

(** The same loop with baseline counters 100 (sent) and 100 (received). *)
Definition exampleLoopBoth : Loop :=
  enter (NewNetworkMonitor "eth0" 1 2 "json") (mkIO "eth0" 100 100) [] [].

(** The state after the ticker fired for each answer in [oss]. *)
Definition ticks (st : Loop) (oss : list OSReply) : Loop := fold_left onTick oss st.

(** The largest unit whose threshold is at most the quantity [bytes], where
    the quantity is compared with [threshold * scale]. *)
Definition largestUnit (scale bytes : Z) (suffix : string) : string :=
  let prefix :=
    if 2 ^ 30 * scale <=? bytes then "GB"
    else if 2 ^ 20 * scale <=? bytes then "MB"
    else if 2 ^ 10 * scale <=? bytes then "KB"
    else "B" in
  (prefix ++ suffix)%string.

(** The rate [bytes / interval] rounded to the nearest whole number of bytes
    per second, halves up, and halves to even. *)
Definition roundHalfUp (bytes interval : Z) : Z :=
  (2 * bytes + interval) / (2 * interval).

Definition roundHalfEven (bytes interval : Z) : Z :=
  let q := bytes / interval in
  let r := bytes mod interval in
  match Z.compare (2 * r) interval with
  | Lt => q
  | Gt => q + 1
  | Eq => if Z.even q then q else q + 1
  end.

(** Decidable equality of the scaled values, to check ranges of inputs by
    evaluation. *)
Definition float64_eqb (x y : float64) : bool :=
  match x, y with
  | S754_zero a, S754_zero b => Bool.eqb a b
  | S754_infinity a, S754_infinity b => Bool.eqb a b
  | S754_nan, S754_nan => true
  | S754_finite a m e, S754_finite b n f => Bool.eqb a b && Pos.eqb m n && Z.eqb e f
  | _, _ => false
  end.

Definition Speed_eqb (x y : Speed) : bool :=
  float64_eqb (SpeedValue x) (SpeedValue y) && String.eqb (SpeedUnit x) (SpeedUnit y).

Definition Usage_eqb (x y : Usage) : bool :=
  float64_eqb (UsageValue x) (UsageValue y) && String.eqb (UsageUnit x) (UsageUnit y).

(** The integers [lo], [lo + 1], ..., [lo + n - 1]. *)
Definition Zrange (lo : Z) (n : nat) : list Z :=
  map (fun k => lo + Z.of_nat k) (seq 0 n).

(** At every admitted interval [i], dividing [threshold * i] bytes by [i]
    seconds gives the threshold itself as a binary64. *)
Definition quotientCheck (threshold : Z) : bool :=
  forallb (fun i =>
    float64_eqb (F64.div (F64.of_Z (threshold * i)) (F64.of_Z i))
                (F64.of_Z threshold))
    (Zrange 1 3600).

(** ** Observations of whole runs *)

(** The answers of the counter source to the ticks that the loop handles:
    those before the first [Interrupt]. *)
Fixpoint beforeInterrupt (evs : list Event) : list OSReply :=
  match evs with
  | Tick os :: rest => os :: beforeInterrupt rest
  | _ => []
  end.

Fixpoint interrupted (evs : list Event) : bool :=
  match evs with
  | [] => false
  | Interrupt :: _ => true
  | Tick _ :: rest => interrupted rest
  end.

(** The four constraints [main] checks on the flags. *)
Definition validFlags (fl : Flags) : Prop :=
  flag_i fl <> ""
  /\ 0 <= flag_p fl <= 6
  /\ 1 <= flag_t fl <= 3600
  /\ (flag_f fl = "json" \/ flag_f fl = "table").

Definition sumZ (l : list Z) : Z := fold_right Z.add 0 l.

(** A byte count below one kilobyte is shown as it is, by both scalers and
    at every admitted precision. *)
Definition smallCheck : bool :=
  forallb (fun b =>
    forallb (fun p =>
      Usage_eqb (calculateUsage b p) (mkUsage (F64.of_Z b) "B")
      && Speed_eqb (calculateSpeed b 1 p) (mkSpeed (F64.of_Z b) "B/s"))
      (Zrange 0 7))
    (Zrange 0 1024).

(** * Facts about binary64 arithmetic *)

Module F64Facts.

(** ** Number of binary digits *)

Lemma digits2_size p : digits2_pos p = Pos.size p.
Proof. induction p; simpl; congruence. Qed.

Lemma digits2_bounds p :
  2 ^ (Zpos (digits2_pos p) - 1) <= Zpos p < 2 ^ Zpos (digits2_pos p).
Proof.
  rewrite digits2_size. split.
  - pose proof (Pos.size_le p) as H.
    assert (Hz : 2 ^ Zpos (Pos.size p) <= 2 * Zpos p).
    { rewrite <- Pos2Z.inj_pow. change (2 * Zpos p) with (Zpos p~0).
      apply Pos2Z.pos_le_pos. exact H. }
    replace (Zpos (Pos.size p)) with ((Zpos (Pos.size p) - 1) + 1) in Hz by lia.
    rewrite Z.pow_add_r in Hz by lia. lia.
  - pose proof (Pos.size_gt p) as H.
    rewrite <- Pos2Z.inj_pow. apply Pos2Z.pos_lt_pos. exact H.
Qed.

Lemma digits2_unique p k :
  2 ^ (k - 1) <= Zpos p < 2 ^ k -> Zpos (digits2_pos p) = k.
Proof.
  intros [Hlo Hhi]. pose proof (digits2_bounds p) as [Dlo Dhi].
  set (d := Zpos (digits2_pos p)) in *.
  assert (0 < k).
  { destruct (Z_lt_le_dec 0 k); auto.
    assert (2 ^ k <= 2 ^ 0) by (apply Z.pow_le_mono_r; lia).
    change (2 ^ 0) with 1 in *. lia. }
  destruct (Z_lt_le_dec d k) as [Hlt|Hge].
  - assert (2 ^ d <= 2 ^ (k - 1)) by (apply Z.pow_le_mono_r; lia). lia.
  - destruct (Z_lt_le_dec k d) as [Hlt|Hle]; [|lia].
    assert (2 ^ k <= 2 ^ (d - 1)) by (apply Z.pow_le_mono_r; lia). lia.
Qed.

Lemma digits2_iter_xO p k :
  Zpos (Pos.iter xO p k) = Zpos p * 2 ^ Zpos k.
Proof.
  induction k as [|k IH] using Pos.peano_ind.
  - simpl. lia.
  - rewrite Pos.iter_succ, Pos2Z.inj_xO, IH, Pos2Z.inj_succ, Z.pow_succ_r by lia.
    ring.
Qed.

(** ** Right shifts *)

Lemma iter_pos_invariant {A} (f : A -> A) (P : A -> Prop) :
  (forall x, P x -> P (f x)) -> forall n x, P x -> P (iter_pos f n x).
Proof.
  intros Hf. induction n; intros x Hx; simpl; auto.
Qed.

Lemma shr_1_nonneg r : 0 <= shr_m r -> 0 <= shr_m (shr_1 r).
Proof.
  destruct r as [m r s]. simpl. destruct m as [|[p|p|]|p]; simpl; lia.
Qed.

Lemma shr_1_half r : 0 <= shr_m r -> shr_m (shr_1 r) = shr_m r / 2.
Proof.
  destruct r as [m r s]. simpl. intros Hm.
  destruct m as [|[p|p|]|p]; simpl; try lia; try reflexivity.
  - rewrite Pos2Z.inj_xI. apply Z.div_unique with (r := 1); lia.
  - rewrite Pos2Z.inj_xO. apply Z.div_unique with (r := 0); lia.
Qed.

Lemma iter_shr_1_nonneg n r : 0 <= shr_m r -> 0 <= shr_m (iter_pos shr_1 n r).
Proof. apply (iter_pos_invariant shr_1 (fun x => 0 <= shr_m x) shr_1_nonneg). Qed.

Lemma iter_shr_1_div n : forall r,
  0 <= shr_m r -> shr_m (iter_pos shr_1 n r) = shr_m r / 2 ^ Zpos n.
Proof.
  induction n as [n IH|n IH|]; intros r Hr; simpl iter_pos.
  - rewrite IH by (apply iter_shr_1_nonneg, shr_1_nonneg, Hr).
    rewrite IH by (apply shr_1_nonneg, Hr).
    rewrite shr_1_half by exact Hr.
    rewrite !Z.div_div by lia.
    f_equal. replace (Zpos n~1) with (1 + Zpos n + Zpos n) by lia.
    rewrite !Z.pow_add_r by lia. change (2 ^ 1) with 2. ring.
  - rewrite IH by (apply iter_shr_1_nonneg, Hr).
    rewrite IH by exact Hr.
    rewrite Z.div_div by lia.
    f_equal. replace (Zpos n~0) with (Zpos n + Zpos n) by lia.
    rewrite Z.pow_add_r by lia. ring.
  - rewrite shr_1_half by exact Hr. reflexivity.
Qed.

Lemma shr_record_of_loc_m m l : shr_m (shr_record_of_loc m l) = m.
Proof. destruct l as [|[]]; reflexivity. Qed.

Lemma shr_fexp_nonneg m e l :
  0 <= m -> 0 <= shr_m (fst (shr_fexp prec emax m e l)).
Proof.
  intros Hm. unfold shr_fexp, shr.
  assert (H0 : 0 <= shr_m (shr_record_of_loc m l))
    by (rewrite shr_record_of_loc_m; exact Hm).
  destruct (fexp prec emax (Zdigits2 m + e) - e); simpl; auto.
  apply iter_shr_1_nonneg; exact H0.
Qed.

Lemma round_nearest_even_nonneg m l : 0 <= m -> 0 <= round_nearest_even m l.
Proof.
  intros Hm. destruct l as [|[]]; simpl; try lia. destruct (Z.even m); lia.
Qed.

Lemma round_nearest_even_bounds m l : m <= round_nearest_even m l <= m + 1.
Proof.
  destruct l as [|[]]; simpl; try lia. destruct (Z.even m); lia.
Qed.

(** A mantissa of at least 53 digits, in the range of normal numbers, is
    shifted down to exactly 53 digits. *)
Lemma shr_fexp_normal pm e l :
  let d := Zpos (digits2_pos pm) in
  53 <= d -> emin <= e + d - 53 ->
  exists r, shr_fexp prec emax (Zpos pm) e l = (r, e + d - 53)
            /\ shr_m r = Zpos pm / 2 ^ (d - 53)
            /\ (d = 53 -> r = shr_record_of_loc (Zpos pm) l)
            /\ (d = 54 -> r = shr_1 (shr_record_of_loc (Zpos pm) l)).
Proof.
  intros d Hd He. unfold shr_fexp. simpl Zdigits2. fold d.
  assert (Hf : fexp prec emax (d + e) - e = d - 53).
  { unfold fexp. change prec with 53 in *. lia. }
  rewrite Hf. unfold shr.
  destruct (d - 53) as [|n|n] eqn:Hn; try lia.
  - exists (shr_record_of_loc (Zpos pm) l).
    split; [f_equal; lia|]. split; [|split; [reflexivity|intros; lia]].
    rewrite shr_record_of_loc_m, Z.pow_0_r, Z.div_1_r. reflexivity.
  - exists (iter_pos shr_1 n (shr_record_of_loc (Zpos pm) l)).
    split; [f_equal; lia|]. split; [|split; [intros; lia|]].
    + rewrite iter_shr_1_div by (rewrite shr_record_of_loc_m; lia).
      rewrite shr_record_of_loc_m. reflexivity.
    + intros Hd54. assert (Hn1 : n = 1%positive) by lia. subst n. reflexivity.
Qed.


Lemma pow2_split a b : 0 <= a -> 0 <= b -> 2 ^ (a + b) = 2 ^ a * 2 ^ b.
Proof. intros. apply Z.pow_add_r; assumption. Qed.

Lemma shifted_bounds pm :
  let d := Zpos (digits2_pos pm) in
  53 <= d -> 2 ^ 52 <= Zpos pm / 2 ^ (d - 53) < 2 ^ 53.
Proof.
  intros d Hd. pose proof (digits2_bounds pm) as [Dlo Dhi]. fold d in Dlo, Dhi.
  assert (Hp : 0 < 2 ^ (d - 53)) by (apply Z.pow_pos_nonneg; lia).
  assert (E1 : 2 ^ (d - 1) = 2 ^ 52 * 2 ^ (d - 53)).
  { rewrite <- pow2_split by lia. f_equal. lia. }
  assert (E2 : 2 ^ d = 2 ^ 53 * 2 ^ (d - 53)).
  { rewrite <- pow2_split by lia. f_equal. lia. }
  rewrite E1 in Dlo. rewrite E2 in Dhi.
  split.
  - apply Z.div_le_lower_bound; lia.
  - apply Z.div_lt_upper_bound; lia.
Qed.

(** Rounding a positive mantissa of at least 53 digits in the range of
    normal numbers: the result is a positive normal number, its mantissa is
    the shifted mantissa or the next one, and a carry into the next binade
    only happens from the all-ones mantissa. *)
Lemma round_normal pm e l :
  let d := Zpos (digits2_pos pm) in
  let m1 := Zpos pm / 2 ^ (d - 53) in
  53 <= d -> emin <= e + d - 53 -> e + d - 52 <= emax - prec ->
  exists mr er,
    binary_round_aux prec emax false (Zpos pm) e l = S754_finite false mr er
    /\ Zpos (digits2_pos mr) = 53
    /\ ((er = e + d - 53 /\ m1 <= Zpos mr <= m1 + 1)
        \/ (er = e + d - 52 /\ m1 = 2 ^ 53 - 1 /\ Zpos mr = 2 ^ 52))
    /\ (d = 53 -> l = loc_Exact -> mr = pm /\ er = e)
    /\ (d = 54 -> l = loc_Exact -> Z.even (Zpos pm) = true -> er = e + 1).
Proof.
  intros d m1 Hd Hlo Hhi.
  destruct (shr_fexp_normal pm e l Hd Hlo) as (r & Hr & Hm & Hex & Hex54).
  fold d in Hr, Hm, Hex, Hex54. fold m1 in Hm.
  pose proof (shifted_bounds pm Hd) as Hb. fold d in Hb. fold m1 in Hb.
  unfold binary_round_aux. rewrite Hr.
  pose proof (round_nearest_even_bounds (shr_m r) (loc_of_shr_record r)) as Hrne.
  assert (Hexact : d = 53 -> l = loc_Exact ->
                   round_nearest_even (shr_m r) (loc_of_shr_record r) = Zpos pm).
  { intros Hd53 ->. rewrite (Hex Hd53). reflexivity. }
  assert (Hexact54 : d = 54 -> l = loc_Exact -> Z.even (Zpos pm) = true ->
                     round_nearest_even (shr_m r) (loc_of_shr_record r) = m1).
  { intros Hd54 -> Hev. rewrite <- Hm, (Hex54 Hd54).
    destruct pm; try discriminate; reflexivity. }
  change (2 ^ 52) with 4503599627370496 in *.
  change (2 ^ 53) with 9007199254740992 in *.
  set (m2 := round_nearest_even (shr_m r) (loc_of_shr_record r)) in *.
  rewrite Hm in Hrne. clearbody m2.
  destruct m2 as [|p2|p2]; try lia.
  destruct (Z_lt_le_dec (Zpos p2) 9007199254740992) as [Hlt|Hge].
  - assert (D2 : Zpos (digits2_pos p2) = 53).
    { apply digits2_unique.
      change (2 ^ (53 - 1)) with 4503599627370496.
      change (2 ^ 53) with 9007199254740992. lia. }
    destruct (shr_fexp_normal p2 (e + d - 53) loc_Exact) as (r2 & Hr2 & Hm2 & Hex2 & _).
    { rewrite D2. lia. }
    { rewrite D2. lia. }
    rewrite D2 in Hr2. rewrite (Hex2 D2) in Hr2.
    rewrite Hr2. simpl shr_m.
    replace (e + d - 53 + 53 - 53 <=? emax - prec) with true
      by (symmetry; apply Z.leb_le; lia).
    exists p2, (e + d - 53 + 53 - 53).
    split; [reflexivity|]. split; [exact D2|]. split; [|split].
    + left. lia.
    + intros Hd53 Hl. specialize (Hexact Hd53 Hl). split; [congruence|lia].
    + intros; lia.
  - assert (Hp2 : Zpos p2 = 9007199254740992) by lia.
    inversion Hp2 as [Hp2']. subst p2.
    destruct (shr_fexp_normal 9007199254740992 (e + d - 53) loc_Exact)
      as (r2 & Hr2 & Hm2 & Hex2 & _).
    { simpl. lia. }
    { simpl. lia. }
    rewrite Hr2, Hm2.
    change (Z.pos 9007199254740992 /
            2 ^ (Z.pos (digits2_pos 9007199254740992) - 53))
      with (Zpos 4503599627370496).
    cbv iota.
    change (Z.pos (digits2_pos 9007199254740992)) with 54.
    replace (e + d - 53 + 54 - 53 <=? emax - prec) with true
      by (symmetry; apply Z.leb_le; lia).
    exists 4503599627370496%positive, (e + d - 53 + 54 - 53).
    split; [reflexivity|]. split; [reflexivity|]. split; [|split].
    + right. lia.
    + intros Hd53 Hl. specialize (Hexact Hd53 Hl).
      pose proof (digits2_bounds pm) as Hpm. fold d in Hpm. rewrite Hd53 in Hpm.
      change (2 ^ 53) with 9007199254740992 in Hpm. lia.
    + intros Hd54 Hl Hev. specialize (Hexact54 Hd54 Hl Hev). lia.
Qed.


(** ** Conversion of a positive integer *)

(** [float64(p)] is a positive normal number; it is exact when [p] has at
    most 53 binary digits. *)
Lemma of_Z_normal p :
  let d := Zpos (digits2_pos p) in
  d <= 64 ->
  exists m e,
    F64.of_Z (Zpos p) = S754_finite false m e
    /\ Zpos (digits2_pos m) = 53
    /\ (d <= 53 -> e = d - 53 /\ Zpos m = Zpos p * 2 ^ (53 - d))
    /\ (53 < d -> d - 53 <= e <= d - 52).
Proof.
  intros d Hd64.
  assert (Hd1 : 1 <= d) by (unfold d; lia).
  unfold F64.of_Z, binary_normalize, binary_round, shl_align.
  fold d.
  assert (Hf : fexp prec emax (d + 0) - 0 = d - 53).
  { unfold fexp. change prec with 53. change (SpecFloat.emin 53 emax) with (-1074). lia. }
  assert (Hf' : fexp prec emax (d + 0) = d - 53) by lia.
  rewrite Hf.
  destruct (d - 53) as [|k|k] eqn:Hk.
  - (* exactly 53 digits *)
    destruct (round_normal p 0 loc_Exact) as (mr & er & Hr & Hdm & _ & Hex & _);
      fold d; try (change emin with (-1074); change (emax - prec) with 971; lia).
    fold d in Hex. destruct Hex as [-> ->]; [lia|reflexivity|].
    exists p, 0. split; [exact Hr|]. split; [fold d; lia|]. split.
    + intros _. split; [lia|]. replace (53 - d) with 0 by lia. lia.
    + intros; lia.
  - (* more than 53 digits *)
    destruct (round_normal p 0 loc_Exact) as (mr & er & Hr & Hdm & Hcase & _);
      fold d; try (change emin with (-1074); change (emax - prec) with 971; lia).
    fold d in Hcase.
    exists mr, er. split; [exact Hr|]. split; [exact Hdm|]. split.
    + intros; lia.
    + intros _. destruct Hcase as [[-> _]|[-> _]]; lia.
  - (* fewer than 53 digits: the mantissa is shifted left *)
    rewrite Hf'.
    assert (Hv : Zpos (Pos.iter xO p k) = Zpos p * 2 ^ (53 - d)).
    { rewrite digits2_iter_xO. f_equal. f_equal. lia. }
    assert (Hdz : Zpos (digits2_pos (Pos.iter xO p k)) = 53).
    { apply digits2_unique. rewrite Hv.
      pose proof (digits2_bounds p) as [Dlo Dhi]. fold d in Dlo, Dhi.
      assert (E1 : 2 ^ (53 - 1) = 2 ^ (d - 1) * 2 ^ (53 - d)).
      { rewrite <- pow2_split by lia. f_equal. lia. }
      assert (E2 : 2 ^ 53 = 2 ^ d * 2 ^ (53 - d)).
      { rewrite <- pow2_split by lia. f_equal. lia. }
      rewrite E1, E2.
      assert (0 < 2 ^ (53 - d)) by (apply Z.pow_pos_nonneg; lia).
      split; [apply Z.mul_le_mono_nonneg_r|apply Z.mul_lt_mono_pos_r]; lia. }
    destruct (round_normal (Pos.iter xO p k) (Z.neg k) loc_Exact)
      as (mr & er & Hr & Hdm & _ & Hex & _);
      rewrite ?Hdz; try (change emin with (-1074); change (emax - prec) with 971; lia).
    rewrite Hdz in Hex. destruct Hex as [-> ->]; [reflexivity|reflexivity|].
    eexists _, _. split; [exact Hr|]. split; [exact Hdz|]. split.
    + intros _. split; [lia|exact Hv].
    + intros; lia.
Qed.

(** ** Comparison with a power of two *)

(** [2^k] as a binary64 has mantissa [2^52] and exponent [k - 52]; a positive
    normal number is at least [2^k] exactly when its exponent is at least
    [k - 52]. *)
Lemma geb_normal m e k :
  Zpos (digits2_pos m) = 53 ->
  F64.geb (S754_finite false m e) (S754_finite false 4503599627370496 k)
  = (k <=? e).
Proof.
  intros Hd. unfold F64.geb, SFleb, SFcompare.
  destruct (Z.compare_spec k e) as [Heq|Hlt|Hgt].
  - subst e. rewrite Z.leb_refl.
    pose proof (digits2_bounds m) as [Dlo _]. rewrite Hd in Dlo.
    change (2 ^ (53 - 1)) with (Zpos 4503599627370496) in Dlo.
    change (Pos.compare_cont Eq 4503599627370496 m)
      with (Pos.compare 4503599627370496 m).
    destruct (Pos.compare_spec 4503599627370496 m) as [?|?|Hc]; try reflexivity.
    apply Pos2Z.pos_lt_pos in Hc. lia.
  - symmetry. apply Z.leb_le. lia.
  - symmetry. apply Z.leb_gt. lia.
Qed.

Lemma geb_zero m e : F64.geb (S754_zero false) (S754_finite false m e) = false.
Proof. reflexivity. Qed.


(** ** Division of normal numbers *)

Lemma new_location_zero n : new_location n 0 = loc_Exact.
Proof.
  unfold new_location, new_location_even, new_location_odd.
  destruct (Z.even n); reflexivity.
Qed.

(** The quotient of two positive normal numbers, when it is in the range of
    normal numbers, is normal and its exponent is decided by comparing the
    mantissas: the rounding never carries into the next binade. *)
Lemma div_normal mx ex my ey :
  Zpos (digits2_pos mx) = 53 -> Zpos (digits2_pos my) = 53 ->
  emin <= ex - ey - 53 -> ex - ey - 51 <= emax - prec ->
  exists mr,
    F64.div (S754_finite false mx ex) (S754_finite false my ey)
    = S754_finite false mr
        (ex - ey - 53 + (if Zpos my <=? Zpos mx then 1 else 0))
    /\ Zpos (digits2_pos mr) = 53.
Proof.
  intros Hdx Hdy Hlo Hhi.
  change emin with (-1074) in Hlo. change (emax - prec) with 971 in Hhi.
  pose proof (digits2_bounds mx) as Hbx. rewrite Hdx in Hbx.
  pose proof (digits2_bounds my) as Hby. rewrite Hdy in Hby.
  change (2 ^ (53 - 1)) with 4503599627370496 in *.
  change (2 ^ 53) with 9007199254740992 in *.
  unfold F64.div, SFdiv, SFdiv_core_binary. simpl Zdigits2. rewrite Hdx, Hdy.
  assert (He : Z.min (fexp prec emax (53 + ex - (53 + ey))) (ex - ey) = ex - ey - 53).
  { unfold fexp. change prec with 53. change (SpecFloat.emin 53 emax) with (-1074). lia. }
  rewrite He.
  replace (ex - ey - (ex - ey - 53)) with 53 by lia.
  rewrite Z.shiftl_mul_pow2 by lia.
  change (2 ^ 53) with 9007199254740992.
  pose proof (Z_div_mod (Zpos mx * 9007199254740992) (Zpos my) eq_refl) as Hdm.
  destruct (Z.div_eucl (Zpos mx * 9007199254740992) (Zpos my)) as [q r].
  destruct Hdm as [Hqr Hr]. simpl xorb.
  assert (Hq : q = Zpos mx * 9007199254740992 / Zpos my).
  { apply Z.div_unique with (r := r); [left; exact Hr|exact Hqr]. }
  assert (Hq52 : 4503599627370496 <= q).
  { rewrite Hq. apply Z.div_le_lower_bound; lia. }
  destruct q as [|pq|pq]; try lia.
  destruct (Z.leb_spec (Zpos my) (Zpos mx)) as [Hge|Hlt].
  - (* the quotient of the mantissas is in [1, 2): 54 digits *)
    assert (Hq53 : 9007199254740992 <= Zpos pq < 18014398509481984).
    { rewrite Hq. split.
      - apply Z.div_le_lower_bound; lia.
      - apply Z.div_lt_upper_bound; lia. }
    assert (Hdq : Zpos (digits2_pos pq) = 54).
    { apply digits2_unique. change (2 ^ (54 - 1)) with 9007199254740992.
      change (2 ^ 54) with 18014398509481984. exact Hq53. }
    destruct (round_normal pq (ex - ey - 53) (new_location (Zpos my) r))
      as (mr & er & Hres & Hdr & Hcase & _ & Hex54); rewrite ?Hdq;
      try (change emin with (-1074); change (emax - prec) with 971; lia).
    rewrite Hdq in Hcase, Hex54.
    exists mr. rewrite Hres. split; [|exact Hdr]. f_equal.
    destruct Hcase as [[-> _]|(-> & Hm1 & _)]; [lia|].
    (* a carry would need the mantissas 2^53 - 1 and 2^52, whose quotient is exact *)
    change (2 ^ (54 - 53)) with 2 in Hm1. change (2 ^ 53 - 1) with 9007199254740991 in Hm1.
    assert (Hq54 : 18014398509481982 <= Zpos pq).
    { pose proof (Z.mul_div_le (Zpos pq) 2 eq_refl).
      pose proof (Z.mod_pos_bound (Zpos pq) 2 eq_refl).
      pose proof (Z.div_mod (Zpos pq) 2). lia. }
    assert (Hmul : Zpos my * 18014398509481982 <= Zpos my * Zpos pq).
    { apply Z.mul_le_mono_nonneg_l; lia. }
    assert (Hmx : Zpos mx = 9007199254740991) by lia.
    assert (Hmy : Zpos my = 4503599627370496) by lia.
    assert (Hr0 : r = 0) by lia.
    assert (Hpq : Zpos pq = 18014398509481982) by lia.
    subst r. rewrite new_location_zero in Hex54.
    rewrite Hex54; [lia|reflexivity|reflexivity|rewrite Hpq; reflexivity].
  - (* the quotient of the mantissas is in (1/2, 1): 53 digits *)
    assert (Hq53 : Zpos pq < 9007199254740991).
    { rewrite Hq. apply Z.div_lt_upper_bound; lia. }
    assert (Hdq : Zpos (digits2_pos pq) = 53).
    { apply digits2_unique. change (2 ^ (53 - 1)) with 4503599627370496.
      change (2 ^ 53) with 9007199254740992. lia. }
    destruct (round_normal pq (ex - ey - 53) (new_location (Zpos my) r))
      as (mr & er & Hres & Hdr & Hcase & _); rewrite ?Hdq;
      try (change emin with (-1074); change (emax - prec) with 971; lia).
    rewrite Hdq in Hcase.
    exists mr. rewrite Hres. split; [|exact Hdr]. f_equal.
    destruct Hcase as [[-> _]|(-> & Hm1 & _)]; [lia|].
    change (2 ^ (53 - 53)) with 1 in Hm1. rewrite Z.div_1_r in Hm1.
    change (2 ^ 53 - 1) with 9007199254740991 in Hm1. lia.
Qed.


(** ** Thresholds in terms of the integers converted *)

Lemma digits2_le p n : 0 <= n -> Zpos p < 2 ^ n -> Zpos (digits2_pos p) <= n.
Proof.
  intros Hn Hp. pose proof (digits2_bounds p) as [Dlo _].
  assert (H : 2 ^ (Zpos (digits2_pos p) - 1) < 2 ^ n) by lia.
  apply Z.pow_lt_mono_r_iff in H; lia.
Qed.

Lemma digits2_ge p n : 2 ^ n <= Zpos p -> n < Zpos (digits2_pos p).
Proof.
  intros Hp. pose proof (digits2_bounds p) as [_ Dhi].
  assert (H : 2 ^ n < 2 ^ Zpos (digits2_pos p)) by lia.
  apply Z.pow_lt_mono_r_iff in H; lia.
Qed.

(** [float64(b) >= 2^k] holds exactly when [b >= 2^k]. *)
Lemma of_Z_geb_pow2 b k :
  0 <= b < 2 ^ 64 -> 0 <= k <= 52 ->
  F64.geb (F64.of_Z b) (S754_finite false 4503599627370496 (k - 52))
  = (2 ^ k <=? b).
Proof.
  intros Hb Hk.
  assert (Hpk : 0 < 2 ^ k) by (apply Z.pow_pos_nonneg; lia).
  destruct b as [|pb|pb]; try lia.
  - simpl. symmetry. apply Z.leb_gt. lia.
  - pose proof (digits2_le pb 64 ltac:(lia) (proj2 Hb)) as Hd64.
    destruct (of_Z_normal pb Hd64) as (m & e & -> & Hdm & Hsmall & Hlarge).
    rewrite (geb_normal _ _ _ Hdm).
    pose proof (digits2_bounds pb) as [Dlo Dhi].
    set (d := Zpos (digits2_pos pb)) in *.
    destruct (Z.leb_spec (2 ^ k) (Zpos pb)) as [Hle|Hgt].
    + apply Z.leb_le. apply digits2_ge in Hle. fold d in Hle.
      destruct (Z_le_gt_dec d 53) as [Hs|Hl].
      * destruct (Hsmall Hs) as [-> _]. lia.
      * specialize (Hlarge ltac:(lia)). lia.
    + apply Z.leb_gt.
      assert (Hdk : d <= k) by (apply digits2_le; lia).
      destruct (Hsmall ltac:(lia)) as [-> _]. lia.
Qed.

Lemma scale_cmp_eq b i K u :
  0 < u -> (i * (K * u) <=? b * u) = (K * i <=? b).
Proof.
  intros Hu.
  destruct (Z.leb_spec (K * i) b) as [H|H].
  - apply Z.leb_le. replace (i * (K * u)) with (K * i * u) by ring.
    apply Z.mul_le_mono_nonneg_r; lia.
  - apply Z.leb_gt. replace (i * (K * u)) with (K * i * u) by ring.
    apply Z.mul_lt_mono_pos_r; lia.
Qed.

Lemma scale_above b i K u C P :
  0 < u -> 0 < K -> 0 < i -> 1 <= C -> 0 < P ->
  P <= b * u -> i * (C * (2 * K * u)) < 2 * P -> (K * i <=? b) = true.
Proof.
  intros Hu HK Hi HC HP Hlo Hhi.
  apply Z.leb_le.
  destruct (Z_le_gt_dec (K * i) b) as [|Hgt]; [assumption|exfalso].
  assert (H1 : b * u < K * i * u) by (apply Z.mul_lt_mono_pos_r; lia).
  assert (H2 : 0 < K * i * u) by lia.
  assert (H3 : 1 * (2 * (K * i * u)) <= C * (2 * (K * i * u)))
    by (apply Z.mul_le_mono_nonneg_r; lia).
  replace (i * (C * (2 * K * u))) with (C * (2 * (K * i * u))) in Hhi by ring.
  lia.
Qed.

Lemma scale_below b i K u C w P :
  0 < u -> 0 < i -> 1 <= C -> 0 < P ->
  b * u < 2 * P -> P <= i * w -> u * K = C * (2 * w) -> (K * i <=? b) = false.
Proof.
  intros Hu Hi HC HP Hhi Hlo HE.
  apply Z.leb_gt.
  destruct (Z_lt_le_dec b (K * i)) as [|Hle]; [assumption|exfalso].
  assert (H1 : K * i * u <= b * u) by (apply Z.mul_le_mono_nonneg_r; lia).
  replace (K * i * u) with (i * (u * K)) in H1 by ring.
  rewrite HE in H1.
  replace (i * (C * (2 * w))) with (C * (2 * (i * w))) in H1 by ring.
  assert (H3 : 1 * (2 * (i * w)) <= C * (2 * (i * w)))
    by (apply Z.mul_le_mono_nonneg_r; lia).
  lia.
Qed.

(** [float64(b) / float64(i) >= 2^k] holds exactly when [b >= 2^k * i], for
    the refresh intervals the program admits. *)
Lemma div_geb_pow2 b i k :
  0 <= b < 2 ^ 64 -> 1 <= i <= 3600 -> 0 <= k <= 30 ->
  F64.geb (F64.div (F64.of_Z b) (F64.of_Z i))
          (S754_finite false 4503599627370496 (k - 52))
  = (2 ^ k * i <=? b).
Proof.
  intros Hb Hi Hk.
  assert (Hpk : 0 < 2 ^ k) by (apply Z.pow_pos_nonneg; lia).
  assert (Hpk30 : 2 ^ k <= 2 ^ 30) by (apply Z.pow_le_mono_r; lia).
  change (2 ^ 30) with 1073741824 in Hpk30.
  assert (Hki : 0 < 2 ^ k * i <= 1073741824 * 3600).
  { split; [apply Z.mul_pos_pos; lia|apply Z.mul_le_mono_nonneg; lia]. }
  destruct i as [|pi|pi]; try lia.
  assert (Hd2 : Zpos (digits2_pos pi) <= 12).
  { apply digits2_le; [lia|]. change (2 ^ 12) with 4096. lia. }
  destruct (of_Z_normal pi ltac:(lia)) as (my & ey & Ey & Hdy & Hys & _).
  destruct (Hys ltac:(lia)) as [Hey Hmy]. clear Hys.
  rewrite Ey.
  destruct b as [|pb|pb]; try lia.
  - simpl. symmetry. apply Z.leb_gt. lia.
  - pose proof (digits2_le pb 64 ltac:(lia) (proj2 Hb)) as Hd64.
    destruct (of_Z_normal pb Hd64) as (mx & ex & -> & Hdx & Hsmall & Hlarge).
    pose proof (digits2_bounds pb) as [Dlo Dhi].
    pose proof (digits2_bounds mx) as Hbx. rewrite Hdx in Hbx.
    pose proof (digits2_bounds my) as Hby. rewrite Hdy in Hby.
    change (2 ^ (53 - 1)) with 4503599627370496 in *.
    change (2 ^ 53) with 9007199254740992 in *.
    set (d1 := Zpos (digits2_pos pb)) in *.
    set (d2 := Zpos (digits2_pos pi)) in *.
    assert (Hd1 : 1 <= d1) by (unfold d1; lia).
    assert (Hd2' : 1 <= d2) by (unfold d2; lia).
    assert (Hex : -52 <= ex <= 12).
    { destruct (Z_le_gt_dec d1 53) as [Hs|Hl].
      - destruct (Hsmall Hs) as [-> _]. lia.
      - specialize (Hlarge ltac:(lia)). lia. }
    destruct (div_normal mx ex my ey Hdx Hdy) as (mr & -> & Hdr);
      try (change emin with (-1074); change (emax - prec) with 971; lia).
    rewrite (geb_normal _ _ _ Hdr).
    destruct (Z_le_gt_dec d1 53) as [Hs|Hl].
    + destruct (Hsmall Hs) as [Hex' Hmx]. subst ex ey.
      set (A := 53 - d1) in *. set (B := 53 - d2) in *.
      assert (HA : 0 < 2 ^ A) by (apply Z.pow_pos_nonneg; lia).
      assert (HB : 0 < 2 ^ B) by (apply Z.pow_pos_nonneg; lia).
      destruct (Z.compare_spec (k + A) B) as [Heq|Hlt|Hgt].
      * (* same binade: the mantissas decide *)
        assert (EB : 2 ^ B = 2 ^ k * 2 ^ A).
        { rewrite <- pow2_split by lia. f_equal. lia. }
        rewrite <- (scale_cmp_eq (Zpos pb) (Zpos pi) (2 ^ k) (2 ^ A) HA).
        rewrite <- EB, <- Hmx, <- Hmy.
        destruct (Zpos my <=? Zpos mx).
        -- apply Z.leb_le. lia.
        -- apply Z.leb_gt. lia.
      * (* the quotient lies in a binade above the threshold *)
        assert (EB : 2 ^ B = 2 ^ (B - A - k - 1) * (2 * 2 ^ k * 2 ^ A)).
        { change (2 * 2 ^ k) with (2 ^ 1 * 2 ^ k).
          rewrite <- !pow2_split by lia. f_equal. lia. }
        assert (HC : 0 < 2 ^ (B - A - k - 1)) by (apply Z.pow_pos_nonneg; lia).
        assert (HR : (2 ^ k * Zpos pi <=? Zpos pb) = true).
        { apply (scale_above (Zpos pb) (Zpos pi) (2 ^ k) (2 ^ A)
                   (2 ^ (B - A - k - 1)) 4503599627370496);
            first [lia | rewrite <- EB, <- Hmy; lia]. }
        rewrite HR. apply Z.leb_le. destruct (Zpos my <=? Zpos mx); lia.
      * (* the quotient lies in a binade below the threshold *)
        assert (EA : 2 ^ A * 2 ^ k = 2 ^ (k + A - B - 1) * (2 * 2 ^ B)).
        { change (2 * 2 ^ B) with (2 ^ 1 * 2 ^ B).
          rewrite <- !pow2_split by lia. f_equal. lia. }
        assert (HC : 0 < 2 ^ (k + A - B - 1)) by (apply Z.pow_pos_nonneg; lia).
        assert (HR : (2 ^ k * Zpos pi <=? Zpos pb) = false).
        { apply (scale_below (Zpos pb) (Zpos pi) (2 ^ k) (2 ^ A)
                   (2 ^ (k + A - B - 1)) (2 ^ B) 4503599627370496);
            first [lia | rewrite <- Hmx; lia | rewrite <- Hmy; lia]. }
        rewrite HR. apply Z.leb_gt. destruct (Zpos my <=? Zpos mx); lia.
    + specialize (Hlarge ltac:(lia)).
      assert (H53 : 2 ^ 53 <= 2 ^ (d1 - 1)) by (apply Z.pow_le_mono_r; lia).
      change (2 ^ 53) with 9007199254740992 in H53.
      transitivity true.
      * apply Z.leb_le. destruct (Zpos my <=? Zpos mx); lia.
      * symmetry. apply Z.leb_le. lia.
Qed.


(** ** Signs *)

Lemma binary_round_aux_nonneg m e l :
  0 <= m -> F64.nonneg (binary_round_aux prec emax false m e l) = true.
Proof.
  intros Hm. unfold binary_round_aux.
  pose proof (shr_fexp_nonneg m e l Hm) as H1.
  destruct (shr_fexp prec emax m e l) as [mrs' e']. simpl in H1.
  pose proof (shr_fexp_nonneg _ e' loc_Exact
                (round_nearest_even_nonneg _ (loc_of_shr_record mrs') H1)) as H2.
  destruct (shr_fexp prec emax _ e' loc_Exact) as [mrs'' e'']. simpl in H2.
  destruct (shr_m mrs''); try lia; try reflexivity.
  destruct (e'' <=? emax - prec); reflexivity.
Qed.

Lemma of_Z_nonneg z : 0 <= z -> F64.nonneg (F64.of_Z z) = true.
Proof.
  intros Hz. unfold F64.of_Z, binary_normalize.
  destruct z as [|p|p]; try lia; try reflexivity.
  unfold binary_round. destruct (shl_align _ _ _) as [mz ez].
  apply binary_round_aux_nonneg. lia.
Qed.

Lemma mul_nonneg x m e :
  F64.nonneg x = true -> F64.nonneg (F64.mul x (S754_finite false m e)) = true.
Proof.
  destruct x as [[]|[]| |[] mx ex]; simpl; intros H; try discriminate;
    try reflexivity.
  apply binary_round_aux_nonneg. lia.
Qed.

Lemma SFdiv_core_nonneg mx ex my ey :
  0 <= fst (fst (SFdiv_core_binary prec emax (Zpos mx) ex (Zpos my) ey)).
Proof.
  unfold SFdiv_core_binary. cbv zeta.
  match goal with
  | |- context [Z.div_eucl ?a ?b] =>
      assert (Ha : 0 <= a);
      [|pose proof (Z_div_mod a b eq_refl) as Hdm;
        destruct (Z.div_eucl a b) as [q r]]
  end.
  - match goal with |- 0 <= match ?s with _ => _ end => destruct s end;
      try lia. apply Z.shiftl_nonneg. lia.
  - destruct Hdm as [Hqr Hr]. simpl.
    rewrite (Z.div_unique _ _ q r (or_introl Hr) Hqr).
    apply Z.div_pos; lia.
Qed.

Lemma div_nonneg x m e :
  F64.nonneg x = true -> F64.nonneg (F64.div x (S754_finite false m e)) = true.
Proof.
  destruct x as [[]|[]| |[] mx ex]; simpl; intros H; try discriminate;
    try reflexivity.
  pose proof (SFdiv_core_nonneg mx ex m e) as Hq.
  destruct (SFdiv_core_binary prec emax (Zpos mx) ex (Zpos m) e) as [[mz ez] lz].
  apply binary_round_aux_nonneg. exact Hq.
Qed.

Lemma Round_nonneg x : F64.nonneg x = true -> F64.nonneg (F64.Round x) = true.
Proof.
  destruct x as [[]|[]| |[] m e]; simpl; intros H; try discriminate;
    try reflexivity.
  destruct (Z.leb_spec 0 e) as [Hge|Hlt]; [reflexivity|].
  apply (of_Z_nonneg ((Zpos m + 2 ^ (- e - 1)) / 2 ^ (- e))).
  assert (0 <= 2 ^ (- e - 1)) by (apply Z.pow_nonneg; lia).
  assert (0 < 2 ^ (- e)) by (apply Z.pow_pos_nonneg; lia).
  apply Z.div_pos; lia.
Qed.

Lemma pow10_finite p :
  0 <= p <= 6 -> exists m e, F64.pow10 p = S754_finite false m e.
Proof.
  intros Hp.
  assert (Hc : p = 0 \/ p = 1 \/ p = 2 \/ p = 3 \/ p = 4 \/ p = 5 \/ p = 6) by lia.
  destruct Hc as [->|[->|[->|[->|[->|[->| ->]]]]]]; eexists _, _; reflexivity.
Qed.

Lemma nonneg_geb_zero x :
  F64.nonneg x = true -> F64.geb x F64.zero = true /\ F64.signbit x = false.
Proof.
  destruct x as [[]|[]| |[] m e]; simpl; intros H; try discriminate;
    split; reflexivity.
Qed.

End F64Facts.

(** * The unit scaler *)

Section ScalerFacts.

Import F64Facts.

Lemma KB_eq : KB = S754_finite false 4503599627370496 (10 - 52).
Proof. reflexivity. Qed.

Lemma MB_eq : MB = S754_finite false 4503599627370496 (20 - 52).
Proof. reflexivity. Qed.

Lemma GB_eq : GB = S754_finite false 4503599627370496 (30 - 52).
Proof. reflexivity. Qed.

Lemma wrap64_range z : is_uint64 (wrap64 z).
Proof. unfold is_uint64, wrap64. apply Z.mod_pos_bound. reflexivity. Qed.

Lemma wrap64_small z : is_uint64 z -> wrap64 z = z.
Proof. unfold is_uint64, wrap64. intros H. apply Z.mod_small. exact H. Qed.

Lemma round_nonneg v p :
  0 <= p <= 6 -> F64.nonneg v = true -> F64.nonneg (round v p) = true.
Proof.
  intros Hp Hv. unfold round.
  destruct (pow10_finite p Hp) as (m & e & ->).
  apply div_nonneg, Round_nonneg, mul_nonneg, Hv.
Qed.

Lemma of_Z_interval i :
  1 <= i -> is_int i -> exists m e, F64.of_Z i = S754_finite false m e.
Proof.
  intros Hi [_ Hhi]. destruct i as [|pi|pi]; try lia.
  assert (Hd : Zpos (digits2_pos pi) <= 64).
  { apply digits2_le; [lia|]. change (2 ^ 64) with (2 * 2 ^ 63). lia. }
  destruct (of_Z_normal pi Hd) as (m & e & H & _). eauto.
Qed.

Lemma calculateSpeed_nonneg b i p :
  0 <= b -> 1 <= i -> is_int i -> 0 <= p <= 6 ->
  F64.nonneg (SpeedValue (calculateSpeed b i p)) = true.
Proof.
  intros Hb Hi Hint Hp. unfold calculateSpeed.
  destruct (of_Z_interval i Hi Hint) as (m & e & ->).
  assert (Hs : F64.nonneg (F64.div (F64.of_Z b) (S754_finite false m e)) = true)
    by (apply div_nonneg, of_Z_nonneg, Hb).
  rewrite GB_eq, MB_eq, KB_eq.
  repeat match goal with |- context [if ?c then _ else _] => destruct c end;
    simpl SpeedValue; apply round_nonneg; auto using div_nonneg.
Qed.

Lemma calculateUsage_nonneg b p :
  0 <= b -> 0 <= p <= 6 ->
  F64.nonneg (UsageValue (calculateUsage b p)) = true.
Proof.
  intros Hb Hp. unfold calculateUsage.
  pose proof (of_Z_nonneg b Hb) as Hs.
  rewrite GB_eq, MB_eq, KB_eq.
  repeat match goal with |- context [if ?c then _ else _] => destruct c end;
    simpl UsageValue; apply round_nonneg; auto using div_nonneg.
Qed.

Lemma calculateUsage_unit b p :
  is_uint64 b -> UsageUnit (calculateUsage b p) = largestUnit 1 b "".
Proof.
  intros Hb. unfold calculateUsage, largestUnit.
  rewrite GB_eq, MB_eq, KB_eq.
  rewrite !of_Z_geb_pow2 by (try exact Hb; lia).
  rewrite !Z.mul_1_r.
  repeat match goal with |- context [if ?c then _ else _] => destruct c end;
    reflexivity.
Qed.

Lemma calculateSpeed_unit b i p :
  is_uint64 b -> 1 <= i <= 3600 ->
  SpeedUnit (calculateSpeed b i p) = largestUnit i b "/s".
Proof.
  intros Hb Hi. unfold calculateSpeed, largestUnit.
  rewrite GB_eq, MB_eq, KB_eq.
  rewrite !div_geb_pow2 by (try exact Hb; lia).
  repeat match goal with |- context [if ?c then _ else _] => destruct c end;
    reflexivity.
Qed.

Lemma calculateSpeed_zero i p :
  1 <= i -> is_int i -> 0 <= p <= 6 ->
  calculateSpeed 0 i p = mkSpeed F64.zero "B/s".
Proof.
  intros Hi Hint Hp. unfold calculateSpeed.
  destruct (of_Z_interval i Hi Hint) as (m & e & ->).
  simpl. unfold round. destruct (pow10_finite p Hp) as (mp & ep & ->).
  reflexivity.
Qed.

End ScalerFacts.

(** * The polling loop *)

Section LoopFacts.

Import F64Facts.

Lemma onTick_ok st os cur :
  getInterfaceIOCounters os (interfaceName (nm st)) = Ok cur ->
  onTick st os =
    mkLoop (setStats (nm st) (mkStats (nm st) (rawTick st cur)))
           (totalSentStart st) (totalRecvStart st) cur
           (stdout st ++ [render (nm st) (mkStats (nm st) (rawTick st cur))])
           (stderr st) (S (queries st)).
Proof. intros H. unfold onTick. rewrite H. reflexivity. Qed.

Lemma onTick_err st os e :
  getInterfaceIOCounters os (interfaceName (nm st)) = Err e ->
  onTick st os =
    mkLoop (nm st) (totalSentStart st) (totalRecvStart st) (prevNetIO st)
           (stdout st)
           (stderr st ++ [("Error getting network stats: " ++ e)%string])
           (S (queries st)).
Proof. intros H. unfold onTick. rewrite H. reflexivity. Qed.

Lemma onTick_config st os :
  interfaceName (nm (onTick st os)) = interfaceName (nm st)
  /\ refreshInterval (nm (onTick st os)) = refreshInterval (nm st)
  /\ precision (nm (onTick st os)) = precision (nm st)
  /\ format (nm (onTick st os)) = format (nm st)
  /\ totalSentStart (onTick st os) = totalSentStart st
  /\ totalRecvStart (onTick st os) = totalRecvStart st.
Proof.
  unfold onTick.
  destruct (getInterfaceIOCounters os (interfaceName (nm st)));
    repeat split; reflexivity.
Qed.

Lemma rendered_render m s : rendered (render m s) = Some s.
Proof. unfold render. destruct (String.eqb (format m) "table"); reflexivity. Qed.

Lemma sub64_rollback cur prev :
  is_uint64 cur -> is_uint64 prev -> cur < prev ->
  sub64 cur prev = two64 - (prev - cur).
Proof.
  unfold is_uint64, sub64, wrap64. intros Hc Hp Hlt.
  replace (cur - prev) with (two64 - (prev - cur) + (-1) * two64) by ring.
  rewrite Z.mod_add by (unfold two64; lia).
  apply Z.mod_small. lia.
Qed.

Lemma sub64_forward cur prev :
  is_uint64 cur -> is_uint64 prev -> prev <= cur -> sub64 cur prev = cur - prev.
Proof.
  unfold is_uint64, sub64, wrap64. intros Hc Hp Hle. apply Z.mod_small. lia.
Qed.

Lemma sub64_same a : sub64 a a = 0.
Proof. unfold sub64, wrap64. rewrite Z.sub_diag. reflexivity. Qed.

Lemma float64_eqb_eq x y : float64_eqb x y = true -> x = y.
Proof.
  destruct x as [a|a| |a m e], y as [b|b| |b n f]; simpl; try discriminate.
  - intros H. apply Bool.eqb_prop in H. congruence.
  - intros H. apply Bool.eqb_prop in H. congruence.
  - reflexivity.
  - intros H. apply andb_prop in H. destruct H as [H He].
    apply andb_prop in H. destruct H as [Hs Hm].
    apply Bool.eqb_prop in Hs. apply Pos.eqb_eq in Hm. apply Z.eqb_eq in He.
    congruence.
Qed.

Lemma Speed_eqb_eq x y : Speed_eqb x y = true -> x = y.
Proof.
  destruct x, y. unfold Speed_eqb. simpl. intros H.
  apply andb_prop in H. destruct H as [Hv Hu].
  apply float64_eqb_eq in Hv. apply String.eqb_eq in Hu. congruence.
Qed.

Lemma Usage_eqb_eq x y : Usage_eqb x y = true -> x = y.
Proof.
  destruct x, y. unfold Usage_eqb. simpl. intros H.
  apply andb_prop in H. destruct H as [Hv Hu].
  apply float64_eqb_eq in Hv. apply String.eqb_eq in Hu. congruence.
Qed.

Lemma In_Zrange lo n z : lo <= z < lo + Z.of_nat n -> In z (Zrange lo n).
Proof.
  intros Hz. unfold Zrange. apply in_map_iff.
  exists (Z.to_nat (z - lo)). split; [lia|]. apply in_seq. lia.
Qed.

Lemma quotientCheck_sound threshold i :
  quotientCheck threshold = true -> 1 <= i <= 3600 ->
  F64.div (F64.of_Z (threshold * i)) (F64.of_Z i) = F64.of_Z threshold.
Proof.
  unfold quotientCheck. intros H Hi.
  rewrite forallb_forall in H.
  apply float64_eqb_eq, H, In_Zrange. lia.
Qed.

Lemma quotientCheck_KB : quotientCheck 1024 = true.
Proof. vm_compute. reflexivity. Qed.

Lemma quotientCheck_MB : quotientCheck 1048576 = true.
Proof. vm_compute. reflexivity. Qed.

Lemma quotientCheck_GB : quotientCheck 1073741824 = true.
Proof. vm_compute. reflexivity. Qed.

Lemma precision_cases p :
  0 <= p <= 6 -> p = 0 \/ p = 1 \/ p = 2 \/ p = 3 \/ p = 4 \/ p = 5 \/ p = 6.
Proof. lia. Qed.

Lemma calculateSpeed_of_rate b i p r :
  F64.div (F64.of_Z b) (F64.of_Z i) = F64.of_Z r ->
  SpeedValue (calculateSpeed b i p) = UsageValue (calculateUsage r p)
  /\ SpeedUnit (calculateSpeed b i p) = (UsageUnit (calculateUsage r p) ++ "/s")%string.
Proof.
  intros H. unfold calculateSpeed, calculateUsage. rewrite H.
  repeat match goal with |- context [if ?c then _ else _] => destruct c end;
    split; reflexivity.
Qed.

Lemma boundary_usage p :
  0 <= p <= 6 ->
  calculateUsage 1024 p = mkUsage F64.one "KB"
  /\ calculateUsage 1048576 p = mkUsage F64.one "MB"
  /\ calculateUsage 1073741824 p = mkUsage F64.one "GB".
Proof.
  intros Hp.
  destruct (precision_cases p Hp) as [->|[->|[->|[->|[->|[->| ->]]]]]];
    vm_compute; repeat split; reflexivity.
Qed.

Lemma boundary_speed threshold unit i p :
  F64.div (F64.of_Z (threshold * i)) (F64.of_Z i) = F64.of_Z threshold ->
  calculateUsage threshold p = mkUsage F64.one unit ->
  calculateSpeed (threshold * i) i p = mkSpeed F64.one (unit ++ "/s")%string.
Proof.
  intros Hq Hu.
  destruct (calculateSpeed_of_rate _ _ p _ Hq) as [Hv Hn].
  rewrite Hu in Hv, Hn. simpl in Hv, Hn.
  destruct (calculateSpeed (threshold * i) i p). simpl in *. congruence.
Qed.

End LoopFacts.

(** * The claims *)

Section ClaimsA.

Import F64Facts.

Lemma nonneg_shown x :
  F64.nonneg x = true ->
  F64.signbit x = false /\ F64.geb x F64.zero = true /\ F64.ltb x F64.zero = false.
Proof.
  destruct x as [[]|[]| |[] m e]; simpl; intros H; try discriminate;
    repeat split; reflexivity.
Qed.

(** C1 (as amended). When a counter reading is below the previous one, the
    delta of that counter, sent or received, is the unsigned wrap-around
    [2^64 - (previous - current)], a value from 1 to [2^64 - 1]; it goes to
    [calculateSpeed] as it is (no clamping, no detection), the iteration
    succeeds (the snapshot is rendered, nothing is logged), and the two
    speeds shown are not negative. *)
Theorem C1_rollback_wraps_unclamped (st : Loop) (os : OSReply) (cur : IOCountersStat) :
  getInterfaceIOCounters os (interfaceName (nm st)) = Ok cur ->
  is_uint64 (BytesSent cur) -> is_uint64 (BytesSent (prevNetIO st)) ->
  is_uint64 (BytesRecv cur) -> is_uint64 (BytesRecv (prevNetIO st)) ->
  1 <= refreshInterval (nm st) <= 3600 -> 0 <= precision (nm st) <= 6 ->
  let wrapped previous current := two64 - (previous - current) in
  let shown v :=
    F64.signbit v = false /\ F64.geb v F64.zero = true /\ F64.ltb v F64.zero = false in
  let st' := onTick st os in
  (BytesSent cur < BytesSent (prevNetIO st) ->
     sentBytes (rawTick st cur) = wrapped (BytesSent (prevNetIO st)) (BytesSent cur)
     /\ 0 < wrapped (BytesSent (prevNetIO st)) (BytesSent cur) < two64
     /\ SentSpeed (stats (nm st')) =
          calculateSpeed (wrapped (BytesSent (prevNetIO st)) (BytesSent cur))
                         (refreshInterval (nm st)) (precision (nm st)))
  /\ (BytesRecv cur < BytesRecv (prevNetIO st) ->
     recvBytes (rawTick st cur) = wrapped (BytesRecv (prevNetIO st)) (BytesRecv cur)
     /\ 0 < wrapped (BytesRecv (prevNetIO st)) (BytesRecv cur) < two64
     /\ RecvSpeed (stats (nm st')) =
          calculateSpeed (wrapped (BytesRecv (prevNetIO st)) (BytesRecv cur))
                         (refreshInterval (nm st)) (precision (nm st)))
  /\ stdout st' = stdout st ++ [render (nm st) (stats (nm st'))]
  /\ stderr st' = stderr st
  /\ shown (SpeedValue (SentSpeed (stats (nm st'))))
  /\ shown (SpeedValue (RecvSpeed (stats (nm st')))).
Proof.
  intros Hq Hsc Hsp Hrc Hrp Hi Hprec wrapped shown st'.
  assert (Hnn : forall x, F64.nonneg (SpeedValue (calculateSpeed (wrap64 x)
                  (refreshInterval (nm st)) (precision (nm st)))) = true).
  { intros x. pose proof (wrap64_range x) as [Hx _].
    apply calculateSpeed_nonneg; unfold is_int; try lia. }
  unfold st'. rewrite (onTick_ok _ _ _ Hq).
  cbn [nm stdout stderr setStats stats].
  split; [|split; [|split; [|split; [|split]]]].
  - intros Hlt.
    assert (Hd : sentBytes (rawTick st cur)
                 = wrapped (BytesSent (prevNetIO st)) (BytesSent cur))
      by (apply sub64_rollback; assumption).
    split; [exact Hd|]. split; [unfold wrapped, is_uint64 in *; lia|].
    cbn [mkStats SentSpeed]. rewrite Hd. reflexivity.
  - intros Hlt.
    assert (Hd : recvBytes (rawTick st cur)
                 = wrapped (BytesRecv (prevNetIO st)) (BytesRecv cur))
      by (apply sub64_rollback; assumption).
    split; [exact Hd|]. split; [unfold wrapped, is_uint64 in *; lia|].
    cbn [mkStats RecvSpeed]. rewrite Hd. reflexivity.
  - reflexivity.
  - reflexivity.
  - apply nonneg_shown. cbn [mkStats SentSpeed rawTick sentBytes]. apply Hnn.
  - apply nonneg_shown. cbn [mkStats RecvSpeed rawTick recvBytes]. apply Hnn.
Qed.

Lemma C1_rollback_wraps_unclamped_witness :
  sentBytes (rawTick exampleLoopBoth (mkIO "eth0" 50 40)) = two64 - 50
  /\ recvBytes (rawTick exampleLoopBoth (mkIO "eth0" 50 40)) = two64 - 60
  /\ F64.signbit (SpeedValue (RecvSpeed (stats (nm
        (onTick exampleLoopBoth (Ok [mkIO "eth0" 50 40])))))) = false.
Proof.
  destruct (C1_rollback_wraps_unclamped exampleLoopBoth (Ok [mkIO "eth0" 50 40])
              (mkIO "eth0" 50 40))
    as (Hs & Hr & _ & _ & _ & (H6 & _)).
  - reflexivity.
  - unfold is_uint64, two64. cbn. lia.
  - unfold is_uint64, two64. cbn. lia.
  - unfold is_uint64, two64. cbn. lia.
  - unfold is_uint64, two64. cbn. lia.
  - cbn. lia.
  - cbn. lia.
  - destruct Hs as (H1 & _); [cbn; lia|].
    destruct Hr as (H2 & _); [cbn; lia|].
    split; [exact H1|]. split; [exact H2|exact H6].
Defined.

(** C1 as stated fails: with previous reading 100 and current reading 50 the
    value that reaches the renderer is [2^34] GB/s, which is not negative. *)
Lemma C1_rollback_value_is_not_negative :
  let st := exampleLoop in
  let st' := onTick st (Ok [mkIO "eth0" 50 0]) in
  BytesSent (mkIO "eth0" 50 0) < BytesSent (prevNetIO st)
  /\ stdout st' = [JSON (stats (nm st'))]
  /\ SentSpeed (stats (nm st')) = mkSpeed (F64.of_Z 17179869184) "GB/s"
  /\ ~ (F64.ltb (SpeedValue (SentSpeed (stats (nm st')))) F64.zero = true
        \/ F64.signbit (SpeedValue (SentSpeed (stats (nm st')))) = true).
Proof.
  vm_compute. repeat split; try reflexivity.
  intros [H|H]; discriminate H.
Qed.


(** C2. Unit selection uses [>=]: the unit is the largest one whose threshold
    is at most the quantity (the byte count for usage, the byte count per
    interval for speed), and a quantity exactly on a threshold is shown as
    [1] in the unit of that threshold, at every admitted interval and
    precision. *)
Theorem C2_threshold_selects_higher_unit (b i p : Z) :
  is_uint64 b -> 1 <= i <= 3600 -> 0 <= p <= 6 ->
  UsageUnit (calculateUsage b p) = largestUnit 1 b ""
  /\ SpeedUnit (calculateSpeed b i p) = largestUnit i b "/s"
  /\ calculateUsage 1024 p = mkUsage F64.one "KB"
  /\ calculateUsage 1048576 p = mkUsage F64.one "MB"
  /\ calculateUsage 1073741824 p = mkUsage F64.one "GB"
  /\ calculateSpeed (1024 * i) i p = mkSpeed F64.one "KB/s"
  /\ calculateSpeed (1048576 * i) i p = mkSpeed F64.one "MB/s"
  /\ calculateSpeed (1073741824 * i) i p = mkSpeed F64.one "GB/s".
Proof.
  intros Hb Hi Hp.
  destruct (boundary_usage p Hp) as (HuK & HuM & HuG).
  pose proof (boundary_speed _ "KB" i p
                (quotientCheck_sound _ i quotientCheck_KB Hi) HuK) as HsK.
  pose proof (boundary_speed _ "MB" i p
                (quotientCheck_sound _ i quotientCheck_MB Hi) HuM) as HsM.
  pose proof (boundary_speed _ "GB" i p
                (quotientCheck_sound _ i quotientCheck_GB Hi) HuG) as HsG.
  repeat split; try assumption.
  - apply calculateUsage_unit, Hb.
  - apply calculateSpeed_unit; assumption.
Qed.

Lemma C2_threshold_selects_higher_unit_witness :
  UsageUnit (calculateUsage 1048576 2) = "MB"
  /\ calculateUsage 1048576 2 = mkUsage F64.one "MB"
  /\ calculateSpeed 1048576 1 2 = mkSpeed F64.one "MB/s".
Proof.
  destruct (C2_threshold_selects_higher_unit 1048576 1 2)
    as (H1 & _ & _ & H4 & _ & _ & H7 & _).
  - unfold is_uint64, two64. lia.
  - lia.
  - lia.
  - split; [exact H1|]. split; [exact H4|exact H7].
Defined.

(** C3 (as amended). After a successful iteration the snapshot's
    [TotalUsage] is [calculateUsage] of [totalSent + totalRecv] added on
    uint64, that is of the sum modulo [2^64]: the exact sum when it is below
    [2^64] and the sum minus [2^64] otherwise. [TotalSent] and [TotalRecv]
    are [calculateUsage] of the two summands, and that snapshot is the one
    rendered. *)
Theorem C3_total_usage_scales_the_wrapped_sum (st : Loop) (os : OSReply)
    (cur : IOCountersStat) :
  getInterfaceIOCounters os (interfaceName (nm st)) = Ok cur ->
  let r := rawTick st cur in
  let s := stats (nm (onTick st os)) in
  TotalSent s = calculateUsage (totalSent r) (precision (nm st))
  /\ TotalRecv s = calculateUsage (totalRecv r) (precision (nm st))
  /\ TotalUsage s = calculateUsage (add64 (totalSent r) (totalRecv r)) (precision (nm st))
  /\ add64 (totalSent r) (totalRecv r) = (totalSent r + totalRecv r) mod 2 ^ 64
  /\ (totalSent r + totalRecv r < two64 ->
      add64 (totalSent r) (totalRecv r) = totalSent r + totalRecv r)
  /\ (two64 <= totalSent r + totalRecv r ->
      add64 (totalSent r) (totalRecv r) = totalSent r + totalRecv r - two64)
  /\ stdout (onTick st os) = stdout st ++ [render (nm st) s]
  /\ rendered (render (nm st) s) = Some s.
Proof.
  intros Hq r s. unfold s. rewrite (onTick_ok _ _ _ Hq).
  cbn [nm stdout setStats stats mkStats TotalSent TotalRecv TotalUsage].
  pose proof (wrap64_range (BytesSent cur - totalSentStart st)) as H1.
  pose proof (wrap64_range (BytesRecv cur - totalRecvStart st)) as H2.
  assert (Hs : totalSent r = wrap64 (BytesSent cur - totalSentStart st)) by reflexivity.
  assert (Hr : totalRecv r = wrap64 (BytesRecv cur - totalRecvStart st)) by reflexivity.
  rewrite <- Hs in H1. rewrite <- Hr in H2. unfold is_uint64 in H1, H2.
  split; [reflexivity|]. split; [reflexivity|]. split; [reflexivity|].
  split; [reflexivity|]. split; [|split; [|split]].
  - intros Hlt. apply wrap64_small. unfold is_uint64. lia.
  - intros Hge. unfold add64, wrap64.
    replace (totalSent r + totalRecv r)
      with (totalSent r + totalRecv r - two64 + 1 * two64) at 1 by ring.
    rewrite Z.mod_add by (unfold two64; lia).
    apply Z.mod_small. lia.
  - reflexivity.
  - apply rendered_render.
Qed.

Lemma C3_total_usage_scales_the_wrapped_sum_witness :
  TotalUsage (stats (nm (onTick exampleLoop (Ok [mkIO "eth0" 1124 2048]))))
  = calculateUsage (add64 1024 2048) 2.
Proof.
  destruct (C3_total_usage_scales_the_wrapped_sum exampleLoop
              (Ok [mkIO "eth0" 1124 2048]) (mkIO "eth0" 1124 2048) eq_refl)
    as (_ & _ & H & _).
  exact H.
Defined.

(** C3 as stated fails: with baselines 100 and 100 and a tick reading 50
    sent (a reset) and 150 received, the raw totals are [2^64 - 50] and 50,
    their sum is [2^64], and the quantity scaled into [TotalUsage] is 0. *)
Lemma C3_sum_wraps_at_two64 :
  let cur := mkIO "eth0" 50 150 in
  let r := rawTick exampleLoopBoth cur in
  let s := stats (nm (onTick exampleLoopBoth (Ok [cur]))) in
  totalSent r = two64 - 50 /\ totalRecv r = 50
  /\ totalSent r + totalRecv r = two64
  /\ TotalUsage s = calculateUsage 0 2
  /\ TotalUsage s = mkUsage F64.zero "B"
  /\ TotalUsage s <> calculateUsage (totalSent r + totalRecv r) 2.
Proof.
  vm_compute. repeat split; try reflexivity. discriminate.
Qed.

(** C4. A failed query on a tick is logged and skipped: the statistics, the
    output, the start baselines and the previous snapshot stay as they were,
    the loop goes on with the next wake-up, and the next successful tick
    computes its deltas and totals against the state before the failure. *)
Theorem C4_failed_tick_is_skipped (st : Loop) (os : OSReply) (e : string)
    (evs : list Event) :
  getInterfaceIOCounters os (interfaceName (nm st)) = Err e ->
  let st' := onTick st os in
  stderr st' = stderr st ++ [("Error getting network stats: " ++ e)%string]
  /\ nm st' = nm st
  /\ stdout st' = stdout st
  /\ totalSentStart st' = totalSentStart st
  /\ totalRecvStart st' = totalRecvStart st
  /\ prevNetIO st' = prevNetIO st
  /\ loop st (Tick os :: evs) = loop st' evs
  /\ (forall cur, rawTick st' cur = rawTick st cur)
  /\ (forall os2 cur, getInterfaceIOCounters os2 (interfaceName (nm st)) = Ok cur ->
        stats (nm (onTick st' os2)) = stats (nm (onTick st os2))
        /\ prevNetIO (onTick st' os2) = cur).
Proof.
  intros Hq st'. unfold st'. rewrite (onTick_err _ _ _ Hq).
  cbn [nm stdout stderr totalSentStart totalRecvStart prevNetIO].
  repeat split; try reflexivity.
  - cbn [loop]. rewrite (onTick_err _ _ _ Hq). reflexivity.
  - rewrite (onTick_ok st os2 cur H).
    rewrite (onTick_ok _ os2 cur) by exact H. reflexivity.
  - rewrite (onTick_ok _ os2 cur) by exact H. reflexivity.
Qed.

Lemma C4_failed_tick_is_skipped_witness :
  stdout (onTick exampleLoop (Ok [mkIO "wlan0" 7 7])) = stdout exampleLoop
  /\ prevNetIO (onTick exampleLoop (Ok [mkIO "wlan0" 7 7])) = mkIO "eth0" 100 0.
Proof.
  destruct (C4_failed_tick_is_skipped exampleLoop (Ok [mkIO "wlan0" 7 7])
              "interface not found: eth0" [] eq_refl)
    as (_ & _ & H3 & _ & _ & H6 & _).
  split; [exact H3|exact H6].
Defined.

End ClaimsA.

Section ClaimsB.

Import F64Facts.

Lemma largestUnit_div b i :
  0 <= b -> 1 <= i -> largestUnit i b "/s" = (largestUnit 1 (b / i) "" ++ "/s")%string.
Proof.
  intros Hb Hi. unfold largestUnit.
  assert (E : forall t, (t * i <=? b) = (t * 1 <=? b / i)).
  { intros t. rewrite Z.mul_1_r.
    destruct (Z.leb_spec t (b / i)) as [H|H].
    - apply Z.leb_le. pose proof (Z.mul_div_le b i ltac:(lia)).
      assert (t * i <= b / i * i) by (apply Z.mul_le_mono_nonneg_r; lia). lia.
    - apply Z.leb_gt. apply Z.nle_gt. intros Hle.
      assert (t <= b / i) by (apply Z.div_le_lower_bound; lia). lia. }
  rewrite !E.
  repeat match goal with |- context [if ?c then _ else _] => destruct c end;
    reflexivity.
Qed.

(** C5 (as amended). For every byte count and every admitted interval,
    [calculateSpeed] picks the unit U/s exactly when [calculateUsage] picks U
    for the rate truncated to whole bytes per second: both compare the
    unrounded rate with the same thresholds. *)
Theorem C5_speed_unit_is_usage_unit_of_truncated_rate (b i p : Z) :
  is_uint64 b -> 1 <= i <= 3600 ->
  SpeedUnit (calculateSpeed b i p)
  = (UsageUnit (calculateUsage (b / i) p) ++ "/s")%string.
Proof.
  intros Hb Hi.
  rewrite calculateSpeed_unit by assumption.
  rewrite calculateUsage_unit.
  - apply largestUnit_div; unfold is_uint64 in Hb; lia.
  - unfold is_uint64 in *. split.
    + apply Z.div_pos; lia.
    + apply Z.le_lt_trans with b; [|lia].
      apply Z.div_le_upper_bound; nia.
Qed.

Lemma C5_speed_unit_is_usage_unit_of_truncated_rate_witness :
  SpeedUnit (calculateSpeed 2047 2 2)
  = (UsageUnit (calculateUsage (2047 / 2) 2) ++ "/s")%string.
Proof.
  apply (C5_speed_unit_is_usage_unit_of_truncated_rate 2047 2 2).
  - unfold is_uint64, two64. lia.
  - lia.
Defined.

(** C5 as stated fails: 2047 bytes over 2 seconds is 1023.5 B/s, shown in
    B/s, while the rounded rate 1024 is shown by [calculateUsage] in KB. *)
Lemma C5_rounded_rate_changes_unit :
  roundHalfUp 2047 2 = 1024 /\ roundHalfEven 2047 2 = 1024
  /\ SpeedUnit (calculateSpeed 2047 2 2) = "B/s"
  /\ UsageUnit (calculateUsage (roundHalfUp 2047 2) 2) = "KB"
  /\ SpeedUnit (calculateSpeed 2047 2 2)
     <> (UsageUnit (calculateUsage (roundHalfUp 2047 2) 2) ++ "/s")%string.
Proof.
  vm_compute. repeat split; try reflexivity. discriminate.
Qed.

Lemma rawTrace_totalSent oss : forall st,
  map totalSent (rawTrace st oss)
  = map (fun c => sub64 (BytesSent c) (totalSentStart st))
        (readings (interfaceName (nm st)) oss).
Proof.
  induction oss as [|os rest IH]; intros st; [reflexivity|].
  destruct (onTick_config st os) as (Hn & _ & _ & _ & Hs & _).
  cbn [rawTrace readings].
  destruct (getInterfaceIOCounters os (interfaceName (nm st))) as [cur|e];
    cbn [map]; rewrite IH, Hn, Hs; reflexivity.
Qed.

Lemma sorted_from_start start l :
  is_uint64 start -> Forall is_uint64 l ->
  Sorted.Sorted Z.le (start :: l) ->
  Sorted.Sorted Z.le (map (fun c => sub64 c start) l).
Proof.
  intros Hs Hall Hsorted.
  apply Sorted.Sorted_StronglySorted in Hsorted;
    [|intros x y z; apply Z.le_trans].
  apply Sorted.StronglySorted_inv in Hsorted. destruct Hsorted as [Hl Hge].
  apply Sorted.StronglySorted_Sorted.
  induction Hl as [|c l Hl IH Hc]; [constructor|].
  inversion Hall as [|? ? Hcu Hlu]; subst.
  inversion Hge as [|? ? Hcs Hls]; subst.
  cbn [map]. constructor; [apply IH; assumption|].
  rewrite Forall_forall in *. intros y Hy.
  apply in_map_iff in Hy. destruct Hy as (c' & <- & Hc').
  rewrite !sub64_forward; auto.
  specialize (Hc _ Hc'). lia.
Qed.

(** C6 (as amended). When the readings of the sent counter never decrease
    and none is below the start baseline (the list that starts with the
    baseline and goes on with the readings is sorted), the raw [totalSent]
    of the successive successful iterations never decreases: it is the
    reading minus the baseline. *)
Theorem C6_totals_monotone (st : Loop) (oss : list OSReply) :
  is_uint64 (totalSentStart st) ->
  Forall is_uint64 (map BytesSent (readings (interfaceName (nm st)) oss)) ->
  Sorted.Sorted Z.le
    (totalSentStart st :: map BytesSent (readings (interfaceName (nm st)) oss)) ->
  Sorted.Sorted Z.le (map totalSent (rawTrace st oss))
  /\ map totalSent (rawTrace st oss)
     = map (fun c => BytesSent c - totalSentStart st)
           (readings (interfaceName (nm st)) oss).
Proof.
  intros Hs Hall Hsorted. rewrite rawTrace_totalSent. split.
  - rewrite <- (map_map BytesSent (fun c => sub64 c (totalSentStart st))).
    apply sorted_from_start; assumption.
  - apply Sorted.Sorted_StronglySorted in Hsorted;
      [|intros x y z; apply Z.le_trans].
    apply Sorted.StronglySorted_inv in Hsorted. destruct Hsorted as [_ Hge].
    apply map_ext_in. intros c Hc.
    rewrite Forall_forall in Hall, Hge.
    apply sub64_forward; auto using in_map.
Qed.

Lemma C6_totals_monotone_witness :
  Sorted.Sorted Z.le
    (map totalSent (rawTrace exampleLoop
       [Ok [mkIO "eth0" 150 0]; Err "down"; Ok [mkIO "eth0" 150 9]; Ok [mkIO "eth0" 4096 9]])).
Proof.
  apply (C6_totals_monotone exampleLoop
           [Ok [mkIO "eth0" 150 0]; Err "down"; Ok [mkIO "eth0" 150 9];
            Ok [mkIO "eth0" 4096 9]]).
  - unfold is_uint64, two64. cbn. lia.
  - cbn. repeat constructor; unfold two64; lia.
  - cbn. repeat constructor; lia.
Defined.

(** C6 as stated fails: with baseline 100 and, after an earlier reset, a
    previous reading of 10, the ticks reading 30 and then 110 see counters
    that never decrease, and the raw [totalSent] falls from [2^64 - 70]
    to 10. *)
Lemma C6_totals_fall_after_reset :
  let st := onTick exampleLoop (Ok [mkIO "eth0" 10 0]) in
  let oss := [Ok [mkIO "eth0" 30 0]; Ok [mkIO "eth0" 110 0]] in
  Sorted.Sorted Z.le
    (BytesSent (prevNetIO st) :: map BytesSent (readings (interfaceName (nm st)) oss))
  /\ map totalSent (rawTrace st oss) = [two64 - 70; 10]
  /\ ~ Sorted.Sorted Z.le (map totalSent (rawTrace st oss)).
Proof.
  cbv zeta.
  assert (Et : map totalSent
                 (rawTrace (onTick exampleLoop (Ok [mkIO "eth0" 10 0]))
                    [Ok [mkIO "eth0" 30 0]; Ok [mkIO "eth0" 110 0]])
               = [two64 - 70; 10]) by (vm_compute; reflexivity).
  split; [|split].
  - change (Sorted.Sorted Z.le [10; 30; 110]).
    repeat constructor; lia.
  - exact Et.
  - rewrite Et. intros H. inversion H as [|a l Hs Hh]; subst.
    inversion Hh as [|b l' Hle]; subst. unfold two64 in Hle. lia.
Qed.

(** C7. A tick that reads the same counters as the successful tick before it
    has zero sent and received deltas, shown as 0 B/s, and the same raw and
    scaled totals as that tick. *)
Theorem C7_no_traffic_tick (st : Loop) (os1 os2 : OSReply) (cur1 cur2 : IOCountersStat) :
  getInterfaceIOCounters os1 (interfaceName (nm st)) = Ok cur1 ->
  getInterfaceIOCounters os2 (interfaceName (nm st)) = Ok cur2 ->
  BytesSent cur2 = BytesSent cur1 -> BytesRecv cur2 = BytesRecv cur1 ->
  1 <= refreshInterval (nm st) <= 3600 -> 0 <= precision (nm st) <= 6 ->
  let st1 := onTick st os1 in
  let st2 := onTick st1 os2 in
  sentBytes (rawTick st1 cur2) = 0
  /\ recvBytes (rawTick st1 cur2) = 0
  /\ SentSpeed (stats (nm st2)) = mkSpeed F64.zero "B/s"
  /\ RecvSpeed (stats (nm st2)) = mkSpeed F64.zero "B/s"
  /\ totalSent (rawTick st1 cur2) = totalSent (rawTick st cur1)
  /\ totalRecv (rawTick st1 cur2) = totalRecv (rawTick st cur1)
  /\ TotalSent (stats (nm st2)) = TotalSent (stats (nm st1))
  /\ TotalRecv (stats (nm st2)) = TotalRecv (stats (nm st1))
  /\ TotalUsage (stats (nm st2)) = TotalUsage (stats (nm st1)).
Proof.
  intros Hq1 Hq2 Hs Hr Hi Hp st1 st2.
  assert (Hst1 : st1 = _) by (unfold st1; apply (onTick_ok _ _ _ Hq1)).
  assert (Hq2' : getInterfaceIOCounters os2 (interfaceName (nm st1)) = Ok cur2).
  { destruct (onTick_config st os1) as (Hn & _). fold st1 in Hn.
    rewrite Hn. exact Hq2. }
  assert (Hst2 : st2 = _) by (unfold st2; apply (onTick_ok _ _ _ Hq2')).
  assert (Hraw : rawTick st1 cur2
                 = mkRaw 0 0 (totalSent (rawTick st cur1)) (totalRecv (rawTick st cur1))).
  { rewrite Hst1. unfold rawTick.
    cbn [prevNetIO totalSentStart totalRecvStart sentBytes recvBytes totalSent totalRecv].
    rewrite Hs, Hr, !sub64_same. reflexivity. }
  rewrite Hst2. cbn [nm setStats stats]. rewrite Hraw.
  rewrite Hst1 at 1 2 3 4 5.
  cbn [nm setStats stats mkStats SentSpeed RecvSpeed TotalSent TotalRecv TotalUsage
       sentBytes recvBytes totalSent totalRecv refreshInterval precision].
  rewrite calculateSpeed_zero by (unfold is_int; lia).
  repeat split; try reflexivity.
  all: rewrite Hst1; reflexivity.
Qed.

Lemma C7_no_traffic_tick_witness :
  SentSpeed (stats (nm (onTick (onTick exampleLoop (Ok [mkIO "eth0" 150 7]))
                               (Ok [mkIO "eth0" 150 7]))))
  = mkSpeed F64.zero "B/s".
Proof.
  destruct (C7_no_traffic_tick exampleLoop (Ok [mkIO "eth0" 150 7])
              (Ok [mkIO "eth0" 150 7]) (mkIO "eth0" 150 7) (mkIO "eth0" 150 7)
              eq_refl eq_refl eq_refl eq_refl) as (_ & _ & H & _).
  - cbn. lia.
  - cbn. lia.
  - exact H.
Defined.

End ClaimsB.

Section ClaimsC.

Import F64Facts.

(** C8. Invalid command-line input (no interface name, a precision outside
    [0,6], a refresh interval outside [1,3600], or a format other than json
    and table) ends the process at once with exit status 1 and a message on
    standard error, before any counter query and without rendering any
    statistics. *)
Theorem C8_invalid_flags_exit (fl : Flags) (init : OSReply) (evs : list Event) :
  flag_i fl = "" \/ flag_p fl < 0 \/ 6 < flag_p fl
  \/ flag_t fl < 1 \/ 3600 < flag_t fl
  \/ (flag_f fl <> "json" /\ flag_f fl <> "table") ->
  let p := main fl init evs in
  exitCode p = Some 1
  /\ pStderr p <> []
  /\ pQueries p = 0%nat
  /\ Forall (fun o => rendered o = None) (pStdout p).
Proof.
  intros H p. unfold p, main.
  destruct (String.eqb_spec (flag_i fl) "") as [Hi|Hi].
  { cbn. repeat split; [discriminate|repeat constructor]. }
  destruct ((flag_p fl <? 0) || (flag_p fl >? 6)) eqn:Hp.
  { cbn. repeat split; [discriminate|constructor]. }
  destruct ((flag_t fl <=? 0) || (flag_t fl >? 3600)) eqn:Ht.
  { cbn. repeat split; [discriminate|constructor]. }
  destruct (String.eqb_spec (flag_f fl) "json") as [Hj|Hj];
    destruct (String.eqb_spec (flag_f fl) "table") as [Htb|Htb];
    cbn [negb andb];
    try (cbn; repeat split; [discriminate|constructor]);
    exfalso; apply orb_false_elim in Hp, Ht;
    destruct Hp as [Hp1 Hp2], Ht as [Ht1 Ht2];
    apply Z.ltb_ge in Hp1; apply Z.leb_gt in Ht1;
    rewrite Z.gtb_ltb in Hp2, Ht2; apply Z.ltb_ge in Hp2, Ht2;
    destruct H as [H|[H|[H|[H|[H|[H1 H2]]]]]]; try contradiction; lia.
Qed.

Lemma C8_invalid_flags_exit_witness :
  exitCode (main (mkFlags "eth0" 1 7 "table") (Ok [mkIO "eth0" 0 0]) []) = Some 1
  /\ exitCode (main (mkFlags "eth0" 0 2 "table") (Ok [mkIO "eth0" 0 0]) []) = Some 1
  /\ exitCode (main (mkFlags "eth0" 3601 2 "table") (Ok [mkIO "eth0" 0 0]) []) = Some 1
  /\ exitCode (main (mkFlags "" 1 2 "table") (Ok [mkIO "eth0" 0 0]) []) = Some 1
  /\ exitCode (main (mkFlags "eth0" 1 2 "xml") (Ok [mkIO "eth0" 0 0]) []) = Some 1.
Proof.
  split; [|split; [|split; [|split]]].
  - apply (C8_invalid_flags_exit (mkFlags "eth0" 1 7 "table")). cbn. lia.
  - apply (C8_invalid_flags_exit (mkFlags "eth0" 0 2 "table")). cbn. lia.
  - apply (C8_invalid_flags_exit (mkFlags "eth0" 3601 2 "table")). cbn. lia.
  - apply (C8_invalid_flags_exit (mkFlags "" 1 2 "table")). left. reflexivity.
  - apply (C8_invalid_flags_exit (mkFlags "eth0" 1 2 "xml")).
    do 5 right. cbn. split; discriminate.
Defined.

Set Warnings "-inexact-float".

(** C9. [calculateSpeed(12958993, 1, 2)] is 12.36 MB/s and
    [calculateUsage(1321528114, 2)] is 1.23 GB, the values being the binary64
    numbers written 12.36 and 1.23. *)
Theorem C9_examples :
  calculateSpeed 12958993 1 2 = mkSpeed (Prim2SF 12.36%float) "MB/s"
  /\ calculateUsage 1321528114 2 = mkUsage (Prim2SF 1.23%float) "GB".
Proof. split; vm_compute; reflexivity. Qed.

Set Warnings "+inexact-float".

(** C10. For every uint64 byte count, every interval from 1 on and every
    precision in [0,6], both scalers return a value that is at least zero
    and carries no minus sign, with a unit of their ladder; the deltas and
    totals of an iteration are uint64 values, so every value of a rendered
    snapshot is of that kind. *)
Theorem C10_values_never_negative (b i p : Z) (st : Loop) (os : OSReply)
    (cur : IOCountersStat) :
  is_uint64 b -> 1 <= i -> is_int i -> 0 <= p <= 6 ->
  getInterfaceIOCounters os (interfaceName (nm st)) = Ok cur ->
  1 <= refreshInterval (nm st) -> is_int (refreshInterval (nm st)) ->
  0 <= precision (nm st) <= 6 ->
  let shown v := F64.geb v F64.zero = true /\ F64.signbit v = false in
  let s := stats (nm (onTick st os)) in
  shown (SpeedValue (calculateSpeed b i p))
  /\ In (SpeedUnit (calculateSpeed b i p)) ["B/s"; "KB/s"; "MB/s"; "GB/s"]
  /\ shown (UsageValue (calculateUsage b p))
  /\ In (UsageUnit (calculateUsage b p)) ["B"; "KB"; "MB"; "GB"]
  /\ is_uint64 (sentBytes (rawTick st cur)) /\ is_uint64 (recvBytes (rawTick st cur))
  /\ is_uint64 (totalSent (rawTick st cur)) /\ is_uint64 (totalRecv (rawTick st cur))
  /\ stdout (onTick st os) = stdout st ++ [render (nm st) s]
  /\ shown (SpeedValue (SentSpeed s)) /\ shown (SpeedValue (RecvSpeed s))
  /\ shown (UsageValue (TotalSent s)) /\ shown (UsageValue (TotalRecv s))
  /\ shown (UsageValue (TotalUsage s)).
Proof.
  intros Hb Hi Hint Hp Hq Hri Hrint Hrp shown s.
  assert (Hsp : forall x, is_uint64 x ->
            shown (SpeedValue (calculateSpeed x (refreshInterval (nm st))
                                              (precision (nm st))))).
  { intros x [Hx _]. apply nonneg_geb_zero, calculateSpeed_nonneg; assumption. }
  assert (Hus : forall x, is_uint64 x ->
            shown (UsageValue (calculateUsage x (precision (nm st))))).
  { intros x [Hx _]. apply nonneg_geb_zero, calculateUsage_nonneg; assumption. }
  unfold s. rewrite (onTick_ok _ _ _ Hq).
  cbn [nm stdout setStats stats mkStats SentSpeed RecvSpeed TotalSent TotalRecv
       TotalUsage rawTick sentBytes recvBytes totalSent totalRecv].
  split; [apply nonneg_geb_zero, calculateSpeed_nonneg;
          first [assumption | unfold is_uint64 in Hb; lia]|].
  split.
  { unfold calculateSpeed.
    repeat match goal with |- context [if ?c then _ else _] => destruct c end;
      simpl; tauto. }
  split; [apply nonneg_geb_zero, calculateUsage_nonneg;
          first [assumption | unfold is_uint64 in Hb; lia]|].
  split.
  { unfold calculateUsage.
    repeat match goal with |- context [if ?c then _ else _] => destruct c end;
      simpl; tauto. }
  repeat split; try reflexivity;
    try apply wrap64_range; try apply Hsp; try apply Hus; apply wrap64_range.
Qed.

Lemma C10_values_never_negative_witness :
  F64.signbit (SpeedValue (calculateSpeed (two64 - 50) 1 2)) = false
  /\ F64.signbit (SpeedValue (SentSpeed (stats (nm
       (onTick exampleLoop (Ok [mkIO "eth0" 50 0])))))) = false.
Proof.
  destruct (C10_values_never_negative (two64 - 50) 1 2 exampleLoop
              (Ok [mkIO "eth0" 50 0]) (mkIO "eth0" 50 0))
    as ((_ & H1) & _ & _ & _ & _ & _ & _ & _ & _ & (_ & H2) & _).
  - unfold is_uint64, two64. lia.
  - lia.
  - unfold is_int. lia.
  - lia.
  - reflexivity.
  - cbn. lia.
  - unfold is_int. cbn. lia.
  - cbn. lia.
  - split; [exact H1|exact H2].
Defined.

End ClaimsC.

(** * Further properties of the program *)

Section CounterSource.

(** X1. A successful lookup returns the first entry of the reply that
    carries the requested name: every entry before it has another name. *)
Theorem getInterfaceIOCounters_first_match (netIO : list IOCountersStat)
    (ifaceName : string) (io : IOCountersStat) :
  getInterfaceIOCounters (Ok netIO) ifaceName = Ok io ->
  Name io = ifaceName
  /\ exists before after,
       netIO = before ++ io :: after
       /\ Forall (fun x => Name x <> ifaceName) before.
Proof.
  unfold getInterfaceIOCounters.
  induction netIO as [|x rest IH]; cbn [find]; [discriminate|].
  destruct (String.eqb_spec (Name x) ifaceName) as [Heq|Hne].
  - intros H. inversion H; subst x. split; [exact Heq|].
    exists [], rest. split; [reflexivity|constructor].
  - intros H. destruct (IH H) as (Hn & before & after & -> & Hall).
    split; [exact Hn|].
    exists (x :: before), after. split; [reflexivity|].
    constructor; assumption.
Qed.

Lemma getInterfaceIOCounters_first_match_witness :
  Name (mkIO "eth0" 1 2) = "eth0"
  /\ exists before after,
       [mkIO "lo" 9 9; mkIO "eth0" 1 2; mkIO "eth0" 3 4]
       = before ++ mkIO "eth0" 1 2 :: after
       /\ Forall (fun x => Name x <> "eth0") before.
Proof.
  apply (getInterfaceIOCounters_first_match
           [mkIO "lo" 9 9; mkIO "eth0" 1 2; mkIO "eth0" 3 4] "eth0").
  reflexivity.
Defined.

(** X2. The lookup fails exactly when the counter source fails, and then
    passes its error on, or when no entry of the reply carries the requested
    name, and then the error is "interface not found: " followed by the
    name; in particular it fails on an empty reply. *)
Theorem getInterfaceIOCounters_error (os : OSReply) (ifaceName e : string) :
  getInterfaceIOCounters os ifaceName = Err e <->
  os = Err e
  \/ exists netIO, os = Ok netIO
       /\ Forall (fun x => Name x <> ifaceName) netIO
       /\ e = ("interface not found: " ++ ifaceName)%string.
Proof.
  unfold getInterfaceIOCounters. destruct os as [netIO|e0].
  - split.
    + intros H. right. exists netIO. split; [reflexivity|].
      destruct (find _ netIO) as [io|] eqn:Hf; [discriminate|].
      split; [|congruence].
      apply Forall_forall. intros x Hx Hn.
      apply (find_none _ _ Hf) in Hx. apply String.eqb_neq in Hx. contradiction.
    + intros [H|(l & Hl & Hall & ->)]; [discriminate|].
      inversion Hl; subst l.
      destruct (find _ netIO) as [io|] eqn:Hf; [|reflexivity].
      apply find_some in Hf. destruct Hf as [Hin Hn].
      rewrite Forall_forall in Hall. apply String.eqb_eq in Hn.
      exfalso. exact (Hall _ Hin Hn).
  - split.
    + intros H. left. congruence.
    + intros [H|(l & Hl & _)]; [congruence|discriminate].
Qed.

End CounterSource.

Section Runs.

Lemma last_cons_default {A} (x : A) l d d' : last (x :: l) d = last (x :: l) d'.
Proof.
  revert x. induction l as [|y l IH]; intros x; [reflexivity|].
  change (last (y :: l) d = last (y :: l) d'). apply IH.
Qed.

Lemma ticks_cons st os oss : ticks st (os :: oss) = ticks (onTick st os) oss.
Proof. reflexivity. Qed.

Lemma loop_ticks (st : Loop) (evs : list Event) :
  loop st evs
  = (if interrupted evs then Returned None else Running,
     ticks st (beforeInterrupt evs)).
Proof.
  revert st.
  induction evs as [|[os|] rest IH]; intros st; cbn [loop interrupted beforeInterrupt].
  - reflexivity.
  - rewrite IH. reflexivity.
  - reflexivity.
Qed.

(** X3. The loop handles the ticks before the first interrupt, in order, and
    nothing after it: it returns nil as soon as an interrupt arrives and is
    still running when none has arrived, whatever the ticks returned. *)
Theorem loop_handles_ticks_until_interrupt (st : Loop) (evs : list Event) :
  loop st evs
  = (if interrupted evs then Returned None else Running,
     ticks st (beforeInterrupt evs)).
Proof.
  revert st. induction evs as [|ev rest IH]; intros st.
  - reflexivity.
  - destruct ev as [os|].
    + cbn [loop interrupted beforeInterrupt]. rewrite IH. reflexivity.
    + reflexivity.
Qed.

(** X4. The configuration and the start baselines never change while the
    loop runs. *)
Theorem ticks_keep_configuration (oss : list OSReply) (st : Loop) :
  interfaceName (nm (ticks st oss)) = interfaceName (nm st)
  /\ refreshInterval (nm (ticks st oss)) = refreshInterval (nm st)
  /\ precision (nm (ticks st oss)) = precision (nm st)
  /\ format (nm (ticks st oss)) = format (nm st)
  /\ totalSentStart (ticks st oss) = totalSentStart st
  /\ totalRecvStart (ticks st oss) = totalRecvStart st.
Proof.
  revert st. induction oss as [|os rest IH]; intros st.
  - repeat split; reflexivity.
  - rewrite ticks_cons.
    destruct (IH (onTick st os)) as (H1 & H2 & H3 & H4 & H5 & H6).
    destruct (onTick_config st os) as (G1 & G2 & G3 & G4 & G5 & G6).
    repeat split; congruence.
Qed.

Lemma ticks_count (oss : list OSReply) (st : Loop) :
  let ok := List.length (readings (interfaceName (nm st)) oss) in
  queries (ticks st oss) = (queries st + List.length oss)%nat
  /\ List.length (stdout (ticks st oss)) = (List.length (stdout st) + ok)%nat
  /\ (List.length (stderr (ticks st oss)) + ok = List.length (stderr st) + List.length oss)%nat
  /\ (ok <= List.length oss)%nat.
Proof.
  revert st. induction oss as [|os rest IH]; intros st; cbn zeta.
  - cbn. repeat split; lia.
  - rewrite ticks_cons. specialize (IH (onTick st os)). cbn zeta in IH.
    destruct (onTick_config st os) as (Hn & _). rewrite Hn in IH.
    destruct IH as (Hq & Ho & He & Hle).
    rewrite Hq, Ho. cbn [readings List.length].
    unfold onTick in *.
    destruct (getInterfaceIOCounters os (interfaceName (nm st))) as [cur|e];
      cbn [queries stdout stderr List.length] in *;
      rewrite ?length_app in *; cbn [List.length] in *; repeat split; lia.
Qed.

(** X5. Every tick makes one counter query; a successful one calls the
    renderer once (one more rendering on standard output) and a failed one
    gives one message to the logger. *)
Theorem ticks_accounting (oss : list OSReply) (st : Loop) :
  let ok := List.length (readings (interfaceName (nm st)) oss) in
  queries (ticks st oss) = (queries st + List.length oss)%nat
  /\ List.length (stdout (ticks st oss)) = (List.length (stdout st) + ok)%nat
  /\ (List.length (stderr (ticks st oss)) + ok = List.length (stderr st) + List.length oss)%nat
  /\ (ok <= List.length oss)%nat.
Proof.
  revert st. induction oss as [|os rest IH]; intros st; cbn zeta.
  - cbn. repeat split; lia.
  - rewrite ticks_cons. specialize (IH (onTick st os)). cbn zeta in IH.
    destruct (onTick_config st os) as (Hn & _). rewrite Hn in IH.
    destruct IH as (Hq & Ho & He & Hle).
    rewrite Hq, Ho. cbn [readings List.length].
    unfold onTick in *.
    destruct (getInterfaceIOCounters os (interfaceName (nm st))) as [cur|e];
      cbn [queries stdout stderr List.length] in *;
      rewrite ?length_app in *; cbn [List.length] in *; repeat split; lia.
Qed.

(** X6. The previous snapshot is the last successful reading, or the one the
    loop started from when no tick has succeeded. *)
Theorem ticks_previous_is_last_reading (oss : list OSReply) (st : Loop) :
  prevNetIO (ticks st oss)
  = last (readings (interfaceName (nm st)) oss) (prevNetIO st).
Proof.
  revert st. induction oss as [|os rest IH]; intros st; [reflexivity|].
  rewrite ticks_cons, IH.
  destruct (onTick_config st os) as (Hn & _). rewrite Hn.
  cbn [readings]. unfold onTick.
  destruct (getInterfaceIOCounters os (interfaceName (nm st))) as [cur|e];
    cbn [prevNetIO]; [|reflexivity].
  destruct (readings (interfaceName (nm st)) rest) as [|c l]; [reflexivity|].
  change (last (c :: l) cur = last (c :: l) (prevNetIO st)).
  apply last_cons_default.
Qed.

End Runs.

Section Output.

Lemma render_config m m' s :
  format m = format m' -> precision m = precision m' -> render m s = render m' s.
Proof. unfold render. intros -> ->. reflexivity. Qed.

Lemma mkStats_config m m' r :
  interfaceName m = interfaceName m' -> refreshInterval m = refreshInterval m' ->
  precision m = precision m' -> mkStats m r = mkStats m' r.
Proof. unfold mkStats. intros -> -> ->. reflexivity. Qed.

Lemma ticks_stdout (oss : list OSReply) (st : Loop) :
  stdout (ticks st oss)
  = stdout st ++ map (fun r => render (nm st) (mkStats (nm st) r)) (rawTrace st oss)
  /\ Forall (fun r => Interface (mkStats (nm st) r) = interfaceName (nm st))
            (rawTrace st oss)
  /\ List.length (rawTrace st oss)
     = List.length (readings (interfaceName (nm st)) oss).
Proof.
  revert st. induction oss as [|os rest IH]; intros st.
  - cbn. rewrite app_nil_r. repeat split. constructor.
  - rewrite ticks_cons. destruct (IH (onTick st os)) as (Ho & Hi & Hl).
    destruct (onTick_config st os) as (Hn & Ht & Hp & Hf & _).
    rewrite Ho. cbn [rawTrace readings].
    assert (Hmap : map (fun r => render (nm (onTick st os)) (mkStats (nm (onTick st os)) r))
                       (rawTrace (onTick st os) rest)
                   = map (fun r => render (nm st) (mkStats (nm st) r))
                       (rawTrace (onTick st os) rest)).
    { apply map_ext. intros r.
      rewrite (mkStats_config _ (nm st)) by assumption.
      apply render_config; assumption. }
    rewrite Hn in Hl, Hi.
    destruct (getInterfaceIOCounters os (interfaceName (nm st))) as [cur|e] eqn:Hq.
    + rewrite Hmap. rewrite (onTick_ok _ _ _ Hq) at 1. cbn [stdout map List.length].
      rewrite <- app_assoc, Hl. repeat split.
      constructor; [reflexivity|].
      apply Forall_forall. intros r Hr. reflexivity.
    + rewrite Hmap. rewrite (onTick_err _ _ _ Hq) at 1. cbn [stdout].
      repeat split; [|exact Hl].
      apply Forall_forall. intros r Hr. reflexivity.
Qed.

(** X7. What the loop writes to standard output is exactly, in order, one
    rendering in the configured format per successful tick, of the snapshot
    scaled from that tick's raw quantities; every such snapshot carries the
    monitored interface name, and a failed tick renders nothing. *)
Theorem ticks_output (oss : list OSReply) (st : Loop) :
  stdout (ticks st oss)
  = stdout st ++ map (fun r => render (nm st) (mkStats (nm st) r)) (rawTrace st oss)
  /\ Forall (fun r => Interface (mkStats (nm st) r) = interfaceName (nm st))
            (rawTrace st oss)
  /\ List.length (rawTrace st oss)
     = List.length (readings (interfaceName (nm st)) oss).
Proof.
  revert st. induction oss as [|os rest IH]; intros st.
  - cbn. rewrite app_nil_r. repeat split. constructor.
  - rewrite ticks_cons. destruct (IH (onTick st os)) as (Ho & Hi & Hl).
    destruct (onTick_config st os) as (Hn & Ht & Hp & Hf & _).
    rewrite Ho. cbn [rawTrace readings].
    assert (Hmap : map (fun r => render (nm (onTick st os)) (mkStats (nm (onTick st os)) r))
                       (rawTrace (onTick st os) rest)
                   = map (fun r => render (nm st) (mkStats (nm st) r))
                       (rawTrace (onTick st os) rest)).
    { apply map_ext. intros r.
      rewrite (mkStats_config _ (nm st)) by assumption.
      apply render_config; assumption. }
    rewrite Hn in Hl, Hi.
    destruct (getInterfaceIOCounters os (interfaceName (nm st))) as [cur|e] eqn:Hq.
    + rewrite Hmap. rewrite (onTick_ok _ _ _ Hq) at 1. cbn [stdout map List.length].
      rewrite <- app_assoc, Hl. repeat split.
      constructor; [reflexivity|].
      apply Forall_forall. intros r Hr. reflexivity.
    + rewrite Hmap. rewrite (onTick_err _ _ _ Hq) at 1. cbn [stdout].
      repeat split; [|exact Hl].
      apply Forall_forall. intros r Hr. reflexivity.
Qed.

(** X8. The statistics kept in the monitor are those of the last line
    printed; before the first successful tick they are untouched. *)
Theorem ticks_stats_is_last_rendered (oss : list OSReply) (st : Loop) :
  (readings (interfaceName (nm st)) oss = [] ->
     stats (nm (ticks st oss)) = stats (nm st)
     /\ stdout (ticks st oss) = stdout st)
  /\ (readings (interfaceName (nm st)) oss <> [] ->
     rendered (last (stdout (ticks st oss)) (Text ""))
     = Some (stats (nm (ticks st oss)))).
Proof.
  revert st. induction oss as [|os rest IH]; intros st.
  - split; [split; reflexivity|intros H; contradiction H; reflexivity].
  - rewrite ticks_cons. destruct (IH (onTick st os)) as [Hnone Hsome].
    destruct (onTick_config st os) as (Hn & _). rewrite Hn in Hnone, Hsome.
    cbn [readings].
    destruct (getInterfaceIOCounters os (interfaceName (nm st))) as [cur|e] eqn:Hq.
    + split; [discriminate|intros _].
      destruct (readings (interfaceName (nm st)) rest) as [|c l] eqn:Hr.
      * destruct (Hnone eq_refl) as [Hs Ho]. rewrite Hs, Ho.
        rewrite (onTick_ok _ _ _ Hq). cbn [stdout nm setStats stats].
        rewrite last_last. apply rendered_render.
      * apply Hsome. discriminate.
    + split.
      * intros Hr. destruct (Hnone Hr) as [Hs Ho]. rewrite Hs, Ho.
        rewrite (onTick_err _ _ _ Hq). split; reflexivity.
      * exact Hsome.
Qed.

End Output.

Section Totals.

Lemma wrap64_add_l a b : wrap64 (wrap64 a + b) = wrap64 (a + b).
Proof. unfold wrap64. apply Zplus_mod_idemp_l. Qed.

Lemma wrap64_add_r a b : wrap64 (a + wrap64 b) = wrap64 (a + b).
Proof. unfold wrap64. apply Zplus_mod_idemp_r. Qed.

Lemma wrap64_congr a a' b : wrap64 a = wrap64 a' -> wrap64 (a + b) = wrap64 (a' + b).
Proof. intros H. rewrite <- wrap64_add_l, H, wrap64_add_l. reflexivity. Qed.

(** The running totals are the accumulated deltas, modulo [2^64], from any
    state whose previous snapshot is [acc] bytes (sent) and [acr] bytes
    (received) past the baselines. *)
Lemma rawTrace_telescope (oss : list OSReply) : forall st acc acr d,
  wrap64 (BytesSent (prevNetIO st) - totalSentStart st) = wrap64 acc ->
  wrap64 (BytesRecv (prevNetIO st) - totalRecvStart st) = wrap64 acr ->
  rawTrace st oss <> [] ->
  totalSent (last (rawTrace st oss) d)
  = wrap64 (acc + sumZ (map sentBytes (rawTrace st oss)))
  /\ totalRecv (last (rawTrace st oss) d)
     = wrap64 (acr + sumZ (map recvBytes (rawTrace st oss))).
Proof.
  induction oss as [|os rest IH]; intros st acc acr d Hs Hr Hne.
  - contradiction Hne. reflexivity.
  - cbn [rawTrace] in *.
    destruct (getInterfaceIOCounters os (interfaceName (nm st))) as [cur|e] eqn:Hq.
    + assert (Hs' : wrap64 (BytesSent cur - totalSentStart st)
                    = wrap64 (acc + sentBytes (rawTick st cur))).
      { cbn [rawTick sentBytes]. unfold sub64. rewrite wrap64_add_r.
        rewrite <- (wrap64_congr _ _ (BytesSent cur - BytesSent (prevNetIO st)) Hs).
        f_equal. ring. }
      assert (Hr' : wrap64 (BytesRecv cur - totalRecvStart st)
                    = wrap64 (acr + recvBytes (rawTick st cur))).
      { cbn [rawTick recvBytes]. unfold sub64. rewrite wrap64_add_r.
        rewrite <- (wrap64_congr _ _ (BytesRecv cur - BytesRecv (prevNetIO st)) Hr).
        f_equal. ring. }
      destruct (rawTrace (onTick st os) rest) as [|r l] eqn:Htr.
      * cbn [last map sumZ fold_right]. rewrite !Z.add_0_r.
        cbn [rawTick totalSent totalRecv sentBytes recvBytes] in *.
        unfold sub64 at 1 3. split; assumption.
      * assert (Hne' : rawTrace (onTick st os) rest <> [])
          by (rewrite Htr; discriminate).
        destruct (IH (onTick st os) (acc + sentBytes (rawTick st cur))
                     (acr + recvBytes (rawTick st cur)) d) as [H1 H2];
          try exact Hne';
          try (rewrite (onTick_ok _ _ _ Hq);
               cbn [prevNetIO totalSentStart totalRecvStart]; assumption).
        rewrite Htr in H1, H2.
        change (last (rawTick st cur :: r :: l) d) with (last (r :: l) d).
        change (sumZ (map sentBytes (rawTick st cur :: r :: l)))
          with (sentBytes (rawTick st cur) + sumZ (map sentBytes (r :: l))).
        change (sumZ (map recvBytes (rawTick st cur :: r :: l)))
          with (recvBytes (rawTick st cur) + sumZ (map recvBytes (r :: l))).
        rewrite !Z.add_assoc. split; assumption.
    + apply (IH (onTick st os)); try assumption;
        rewrite (onTick_err _ _ _ Hq); cbn [prevNetIO totalSentStart totalRecvStart];
        assumption.
Qed.

(** X9. In a run of [collectStats] the total of the latest successful tick
    is the sum of the deltas of all successful ticks so far, modulo [2^64],
    for the sent and for the received counter; failed ticks in between lose
    nothing. *)
Theorem totals_are_accumulated_deltas (m : NetworkMonitor) (io : IOCountersStat)
    (out : list Output) (log : list string) (oss : list OSReply) (d : RawTick) :
  let tr := rawTrace (enter m io out log) oss in
  tr <> [] ->
  totalSent (last tr d) = wrap64 (sumZ (map sentBytes tr))
  /\ totalRecv (last tr d) = wrap64 (sumZ (map recvBytes tr)).
Proof.
  intros tr Hne.
  apply (rawTrace_telescope oss (enter m io out log) 0 0 d); try exact Hne;
    cbn [enter prevNetIO totalSentStart totalRecvStart]; f_equal; ring.
Qed.

Lemma totals_are_accumulated_deltas_witness :
  totalSent (last (rawTrace exampleLoop
               [Ok [mkIO "eth0" 150 7]; Err "down"; Ok [mkIO "eth0" 120 9]])
             (mkRaw 0 0 0 0))
  = wrap64 (sumZ (map sentBytes (rawTrace exampleLoop
               [Ok [mkIO "eth0" 150 7]; Err "down"; Ok [mkIO "eth0" 120 9]]))).
Proof.
  apply (totals_are_accumulated_deltas (NewNetworkMonitor "eth0" 1 2 "json")
           (mkIO "eth0" 100 0) [] []
           [Ok [mkIO "eth0" 150 7]; Err "down"; Ok [mkIO "eth0" 120 9]]).
  cbn. discriminate.
Defined.

End Totals.

Section Main.

Lemma main_valid fl init evs :
  validFlags fl ->
  main fl init evs =
    match collectStats (NewNetworkMonitor (flag_i fl) (flag_t fl) (flag_p fl) (flag_f fl))
                       [] [] init evs with
    | (Returned (Some err), st) =>
        logFatal (stdout st) (stderr st) ("Network monitoring error: " ++ err)%string
                 (queries st)
    | (Returned None, st) => mkProcess (Some 0) (stdout st) (stderr st) (queries st)
    | (Running, st) => mkProcess None (stdout st) (stderr st) (queries st)
    end.
Proof.
  intros (Hi & Hp & Ht & Hf). unfold main.
  destruct (String.eqb_spec (flag_i fl) "") as [H|_]; [contradiction|].
  replace (flag_p fl <? 0) with false by (symmetry; apply Z.ltb_ge; lia).
  replace (flag_p fl >? 6) with false
    by (symmetry; rewrite Z.gtb_ltb; apply Z.ltb_ge; lia).
  replace (flag_t fl <=? 0) with false by (symmetry; apply Z.leb_gt; lia).
  replace (flag_t fl >? 3600) with false
    by (symmetry; rewrite Z.gtb_ltb; apply Z.ltb_ge; lia).
  cbn [orb].
  destruct Hf as [-> | ->]; reflexivity.
Qed.

(** X10. With valid flags, a failure of the initial counter query ends the
    process with exit status 1 after that single query: nothing is printed,
    no tick is handled, and standard error gets the one line "Network
    monitoring error: error getting initial network stats: " followed by
    the error. *)
Theorem main_initial_query_failure (fl : Flags) (init : OSReply) (e : string)
    (evs : list Event) :
  validFlags fl ->
  getInterfaceIOCounters init (flag_i fl) = Err e ->
  main fl init evs
  = mkProcess (Some 1) []
      [("Network monitoring error: error getting initial network stats: " ++ e)%string]
      1%nat.
Proof.
  intros Hv Hq. rewrite (main_valid _ _ _ Hv). unfold collectStats.
  cbn [NewNetworkMonitor interfaceName]. rewrite Hq. reflexivity.
Qed.

Lemma main_initial_query_failure_witness :
  exitCode (main (mkFlags "eth0" 1 2 "json") (Ok [mkIO "lo" 1 1]) [Interrupt])
  = Some 1.
Proof.
  rewrite (main_initial_query_failure (mkFlags "eth0" 1 2 "json") (Ok [mkIO "lo" 1 1])
             "interface not found: eth0" [Interrupt]).
  - reflexivity.
  - unfold validFlags. cbn. repeat split; try lia; [discriminate|left; reflexivity].
  - reflexivity.
Defined.

(** X11. With valid flags and a successful initial query, the process exits
    exactly when an interrupt arrives, and then with status 0; until then it
    keeps running, even if every tick fails. It makes one counter query at
    start and one per tick handled, and every tick handled either calls the
    renderer once or gives one message to the logger. *)
Theorem main_runs_until_interrupt (fl : Flags) (init : OSReply)
    (io : IOCountersStat) (evs : list Event) :
  validFlags fl ->
  getInterfaceIOCounters init (flag_i fl) = Ok io ->
  let p := main fl init evs in
  exitCode p = (if interrupted evs then Some 0 else None)
  /\ pQueries p = S (List.length (beforeInterrupt evs))
  /\ (List.length (pStdout p) + List.length (pStderr p)
      = List.length (beforeInterrupt evs))%nat.
Proof.
  intros Hv Hq p. unfold p. rewrite (main_valid _ _ _ Hv). unfold collectStats.
  cbn [NewNetworkMonitor interfaceName]. rewrite Hq.
  rewrite loop_ticks.
  set (st := enter _ io [] []).
  destruct (ticks_count (beforeInterrupt evs) st) as (Hqs & Ho & He & Hle).
  unfold st in Hqs at 2. unfold st in Ho at 2. unfold st in He at 3.
  cbn [enter queries stdout stderr List.length] in Hqs, Ho, He.
  destruct (interrupted evs); cbn [exitCode pQueries pStdout pStderr];
    repeat split; lia.
Qed.

Lemma main_runs_until_interrupt_witness :
  exitCode (main (mkFlags "eth0" 1 2 "json") (Ok [mkIO "eth0" 1 1])
                 [Tick (Err "down"); Interrupt; Tick (Err "late")]) = Some 0
  /\ exitCode (main (mkFlags "eth0" 1 2 "json") (Ok [mkIO "eth0" 1 1])
                 [Tick (Err "down"); Tick (Err "down")]) = None.
Proof.
  assert (Hv : validFlags (mkFlags "eth0" 1 2 "json")).
  { unfold validFlags. cbn. repeat split; try lia; [discriminate|left; reflexivity]. }
  split.
  - apply (main_runs_until_interrupt (mkFlags "eth0" 1 2 "json") (Ok [mkIO "eth0" 1 1])
             (mkIO "eth0" 1 1) [Tick (Err "down"); Interrupt; Tick (Err "late")] Hv eq_refl).
  - apply (main_runs_until_interrupt (mkFlags "eth0" 1 2 "json") (Ok [mkIO "eth0" 1 1])
             (mkIO "eth0" 1 1) [Tick (Err "down"); Tick (Err "down")] Hv eq_refl).
Defined.

(** X12. Only the first violated constraint is reported, the checks being
    made in the order interface, precision, interval, format; a missing
    interface name also prints the usage text and an empty line. *)
Theorem main_reports_first_violation (fl : Flags) (init : OSReply) (evs : list Event) :
  let p := main fl init evs in
  (flag_i fl = "" ->
     pStderr p = [usageText;
                  "Error: the -i (interface) flag is required.
Usage: ./zag-netStats -i <interface_name> -t <interval> -p <precision> -f <format>"]
     /\ pStdout p = [Text "
"])
  /\ (flag_i fl <> "" -> flag_p fl < 0 \/ 6 < flag_p fl ->
      pStderr p = ["Precision must be between 0 and 6 decimal places"])
  /\ (flag_i fl <> "" -> 0 <= flag_p fl <= 6 ->
      flag_t fl < 1 \/ 3600 < flag_t fl ->
      pStderr p = ["Refresh interval must be between 1 and 3600 seconds"])
  /\ (flag_i fl <> "" -> 0 <= flag_p fl <= 6 -> 1 <= flag_t fl <= 3600 ->
      flag_f fl <> "json" -> flag_f fl <> "table" ->
      pStderr p = ["Invalid output format. Allowed values: json, table"]).
Proof.
  intros p. unfold p, main.
  destruct (String.eqb_spec (flag_i fl) "") as [Hi|Hi].
  { repeat split; intros; try contradiction; reflexivity. }
  split; [intros; contradiction|].
  destruct (Z.ltb_spec (flag_p fl) 0) as [Hp1|Hp1].
  { cbn [orb]. repeat split; intros; try lia; reflexivity. }
  rewrite Z.gtb_ltb. destruct (Z.ltb_spec 6 (flag_p fl)) as [Hp2|Hp2].
  { cbn [orb]. repeat split; intros; try lia; reflexivity. }
  cbn [orb]. split; [intros; lia|].
  destruct (Z.leb_spec (flag_t fl) 0) as [Ht1|Ht1].
  { cbn [orb]. repeat split; intros; try lia; reflexivity. }
  rewrite Z.gtb_ltb. destruct (Z.ltb_spec 3600 (flag_t fl)) as [Ht2|Ht2].
  { cbn [orb]. repeat split; intros; try lia; reflexivity. }
  cbn [orb]. split; [intros; lia|].
  intros _ _ _ Hj Ht.
  destruct (String.eqb_spec (flag_f fl) "json"); [contradiction|].
  destruct (String.eqb_spec (flag_f fl) "table"); [contradiction|].
  reflexivity.
Qed.

(** X13. With valid flags, everything on standard output comes from the
    renderer asked for: a call of [printTable] with the precision asked for
    when the format is "table", a call of [printJSON] when it is "json",
    each on a snapshot labelled with the interface asked for. *)
Theorem main_output_format (fl : Flags) (init : OSReply) (io : IOCountersStat)
    (evs : list Event) :
  validFlags fl ->
  getInterfaceIOCounters init (flag_i fl) = Ok io ->
  Forall (fun o => exists s,
            Interface s = flag_i fl
            /\ o = if String.eqb (flag_f fl) "table"
                   then Table s (flag_p fl) else JSON s)
         (pStdout (main fl init evs)).
Proof.
  intros Hv Hq. rewrite (main_valid _ _ _ Hv). unfold collectStats.
  cbn [NewNetworkMonitor interfaceName]. rewrite Hq.
  rewrite loop_ticks.
  set (st := enter _ io [] []).
  destruct (ticks_stdout (beforeInterrupt evs) st) as (Ho & Hi & _).
  assert (Hall : Forall (fun o => exists s,
            Interface s = flag_i fl
            /\ o = if String.eqb (flag_f fl) "table"
                   then Table s (flag_p fl) else JSON s)
         (stdout (ticks st (beforeInterrupt evs)))).
  { rewrite Ho. cbn [stdout app]. apply Forall_forall. intros o Hin.
    apply in_map_iff in Hin. destruct Hin as (r & <- & Hr).
    rewrite Forall_forall in Hi. exists (mkStats (nm st) r).
    split; [exact (Hi r Hr)|]. reflexivity. }
  destruct (interrupted evs); exact Hall.
Qed.

Lemma main_output_format_witness :
  Forall (fun o => exists s, Interface s = "eth0" /\ o = JSON s)
         (pStdout (main (mkFlags "eth0" 1 2 "json") (Ok [mkIO "eth0" 1 1])
                        [Tick (Ok [mkIO "eth0" 5 1]); Interrupt])).
Proof.
  apply (main_output_format (mkFlags "eth0" 1 2 "json") (Ok [mkIO "eth0" 1 1])
           (mkIO "eth0" 1 1) [Tick (Ok [mkIO "eth0" 5 1]); Interrupt]).
  - unfold validFlags. cbn. repeat split; try lia; [discriminate|left; reflexivity].
  - reflexivity.
Defined.

End Main.

Section ScalerEdges.

Import F64Facts.

(** Dividing a positive normal number by one gives the number back. *)
Lemma div_one_normal m e :
  Zpos (digits2_pos m) = 53 -> emin + 1 <= e -> e <= emax - prec ->
  F64.div (S754_finite false m e) F64.one = S754_finite false m e.
Proof.
  intros Hd Hlo Hhi.
  change emin with (-1074) in Hlo. change (emax - prec) with 971 in Hhi.
  change F64.one with (S754_finite false 4503599627370496 (-52)).
  unfold F64.div, SFdiv, SFdiv_core_binary. simpl Zdigits2. rewrite Hd.
  change (Z.pos (digits2_pos 4503599627370496)) with 53.
  assert (He : Z.min (fexp prec emax (53 + e - (53 + -52))) (e - -52) = e - 1).
  { unfold fexp. change prec with 53. change (SpecFloat.emin 53 emax) with (-1074). lia. }
  rewrite He. replace (e - -52 - (e - 1)) with 53 by lia.
  rewrite Z.shiftl_mul_pow2 by lia. change (2 ^ 53) with (2 * 4503599627370496).
  pose proof (Z_div_mod (Zpos m * (2 * 4503599627370496)) 4503599627370496 eq_refl) as Hdm.
  destruct (Z.div_eucl (Zpos m * (2 * 4503599627370496)) 4503599627370496) as [q r].
  destruct Hdm as [Hqr Hr].
  assert (Hq : q = Zpos m~0) by lia. assert (Hr0 : r = 0) by lia. subst q r.
  rewrite new_location_zero. cbn [xorb].
  assert (Hd54 : Zpos (digits2_pos m~0) = 54) by (cbn [digits2_pos]; lia).
  unfold binary_round_aux.
  destruct (shr_fexp_normal m~0 (e - 1) loc_Exact) as (r1 & Hr1 & _ & _ & Hx1);
    rewrite ?Hd54; try lia; [change emin with (-1074); lia|].
  rewrite Hd54 in Hr1. rewrite (Hx1 Hd54) in Hr1. rewrite Hr1.
  cbn [shr_record_of_loc shr_1 shr_m loc_of_shr_record round_nearest_even orb].
  destruct (shr_fexp_normal m (e - 1 + 54 - 53) loc_Exact) as (r2 & Hr2 & _ & Hx2 & _);
    rewrite ?Hd; try lia; [change emin with (-1074); lia|].
  rewrite Hd in Hr2. rewrite (Hx2 Hd) in Hr2. rewrite Hr2.
  cbn [shr_record_of_loc shr_m].
  replace (e - 1 + 54 - 53 + 53 - 53) with e by lia.
  replace (e <=? emax - prec) with true by (symmetry; apply Z.leb_le; exact Hhi).
  reflexivity.
Qed.

Lemma div_one_of_Z b : is_uint64 b -> F64.div (F64.of_Z b) (F64.of_Z 1) = F64.of_Z b.
Proof.
  intros [Hlo Hhi]. destruct b as [|pb|pb]; try lia; [reflexivity|].
  pose proof (digits2_le pb 64 ltac:(lia) Hhi) as Hd64.
  destruct (of_Z_normal pb Hd64) as (m & e & -> & Hd & Hsmall & Hlarge).
  apply div_one_normal; [exact Hd| |];
    change emin with (-1074); change (emax - prec) with 971;
    assert (1 <= Zpos (digits2_pos pb)) by lia;
    destruct (Z_le_gt_dec (Zpos (digits2_pos pb)) 53) as [Hs|Hl];
    [destruct (Hsmall Hs) as [-> _]|specialize (Hlarge ltac:(lia))
    |destruct (Hsmall Hs) as [-> _]|specialize (Hlarge ltac:(lia))]; lia.
Qed.

(** X14. With a refresh interval of one second the speed shows the same
    number as the usage of the same byte count, in the unit of the same
    rank followed by "/s", for every uint64 byte count and every
    precision. *)
Theorem calculateSpeed_interval_one (b p : Z) :
  is_uint64 b ->
  SpeedValue (calculateSpeed b 1 p) = UsageValue (calculateUsage b p)
  /\ SpeedUnit (calculateSpeed b 1 p) = (UsageUnit (calculateUsage b p) ++ "/s")%string.
Proof.
  intros Hb. apply calculateSpeed_of_rate, div_one_of_Z, Hb.
Qed.

Lemma calculateSpeed_interval_one_witness :
  SpeedValue (calculateSpeed 12958993 1 2) = UsageValue (calculateUsage 12958993 2).
Proof.
  apply (calculateSpeed_interval_one 12958993 2).
  unfold is_uint64, two64. lia.
Defined.

Lemma smallCheck_holds : smallCheck = true.
Proof. vm_compute. reflexivity. Qed.

Lemma smallCheck_sound b p :
  smallCheck = true -> 0 <= b < 1024 -> 0 <= p <= 6 ->
  calculateUsage b p = mkUsage (F64.of_Z b) "B"
  /\ calculateSpeed b 1 p = mkSpeed (F64.of_Z b) "B/s".
Proof.
  unfold smallCheck. intros H Hb Hp.
  rewrite forallb_forall in H. specialize (H b (In_Zrange 0 1024 b ltac:(lia))).
  rewrite forallb_forall in H. specialize (H p (In_Zrange 0 7 p ltac:(lia))).
  apply andb_prop in H. destruct H as [Hu Hs].
  split; [apply Usage_eqb_eq, Hu|apply Speed_eqb_eq, Hs].
Qed.

(** X15. A byte count below 1024 is shown exactly, in "B" by
    [calculateUsage] and, over one second, in "B/s" by [calculateSpeed], at
    every precision from 0 to 6: rounding to decimals leaves a whole number
    of bytes unchanged. In particular zero bytes are shown as 0 B. *)
Theorem bytes_below_one_kilobyte_shown_exactly (b p : Z) :
  0 <= b < 1024 -> 0 <= p <= 6 ->
  calculateUsage b p = mkUsage (F64.of_Z b) "B"
  /\ calculateSpeed b 1 p = mkSpeed (F64.of_Z b) "B/s".
Proof.
  intros Hb Hp. exact (smallCheck_sound b p smallCheck_holds Hb Hp).
Qed.

Lemma bytes_below_one_kilobyte_shown_exactly_witness :
  calculateUsage 0 2 = mkUsage F64.zero "B"
  /\ calculateUsage 1023 6 = mkUsage (F64.of_Z 1023) "B".
Proof.
  split.
  - apply (bytes_below_one_kilobyte_shown_exactly 0 2); lia.
  - apply (bytes_below_one_kilobyte_shown_exactly 1023 6); lia.
Defined.

(** X16. [calculateSpeed] itself does not guard the interval: with interval
    0 a positive byte count gives +Inf in "GB/s" and a zero byte count gives
    NaN in "B/s". *)
Theorem calculateSpeed_zero_interval (b p : Z) :
  is_uint64 b -> 0 <= p <= 6 ->
  calculateSpeed b 0 p
  = if b =? 0 then mkSpeed S754_nan "B/s" else mkSpeed (S754_infinity false) "GB/s".
Proof.
  intros [Hlo Hhi] Hp. destruct b as [|pb|pb]; try lia.
  - destruct (precision_cases p Hp) as [->|[->|[->|[->|[->|[->| ->]]]]]];
      reflexivity.
  - pose proof (digits2_le pb 64 ltac:(lia) Hhi) as Hd64.
    destruct (of_Z_normal pb Hd64) as (m & e & Hof & _).
    unfold calculateSpeed. rewrite Hof.
    destruct (precision_cases p Hp) as [->|[->|[->|[->|[->|[->| ->]]]]]];
      reflexivity.
Qed.

Lemma calculateSpeed_zero_interval_witness :
  calculateSpeed 5 0 2 = mkSpeed (S754_infinity false) "GB/s"
  /\ calculateSpeed 0 0 2 = mkSpeed S754_nan "B/s".
Proof.
  split.
  - apply (calculateSpeed_zero_interval 5 2); unfold is_uint64, two64; lia.
  - apply (calculateSpeed_zero_interval 0 2); unfold is_uint64, two64; lia.
Defined.

End ScalerEdges.

Section TickEdges.

(** X17. The delta of a tick depends only on the previous successful
    reading: after a counter reset, the next tick that reads a value not
    below the reset reading has the exact difference as delta, while its
    total stays the wrapped [2^64 - (baseline - reading)] as long as the
    reading is below the baseline. *)
Theorem delta_recovers_after_rollback (st : Loop) (os1 os2 : OSReply)
    (cur1 cur2 : IOCountersStat) :
  getInterfaceIOCounters os1 (interfaceName (nm st)) = Ok cur1 ->
  is_uint64 (BytesSent cur1) -> is_uint64 (BytesSent cur2) ->
  is_uint64 (totalSentStart st) ->
  BytesSent cur1 <= BytesSent cur2 ->
  sentBytes (rawTick (onTick st os1) cur2) = BytesSent cur2 - BytesSent cur1
  /\ (BytesSent cur2 < totalSentStart st ->
      totalSent (rawTick (onTick st os1) cur2)
      = two64 - (totalSentStart st - BytesSent cur2))
  /\ (totalSentStart st <= BytesSent cur2 ->
      totalSent (rawTick (onTick st os1) cur2)
      = BytesSent cur2 - totalSentStart st).
Proof.
  intros Hq H1 H2 Hs Hle. rewrite (onTick_ok _ _ _ Hq).
  cbn [rawTick prevNetIO totalSentStart sentBytes totalSent].
  split; [apply sub64_forward; assumption|]. split; intros H.
  - apply sub64_rollback; assumption.
  - apply sub64_forward; assumption.
Qed.

Lemma delta_recovers_after_rollback_witness :
  sentBytes (rawTick (onTick exampleLoop (Ok [mkIO "eth0" 10 0])) (mkIO "eth0" 30 0)) = 20
  /\ totalSent (rawTick (onTick exampleLoop (Ok [mkIO "eth0" 10 0])) (mkIO "eth0" 30 0))
     = two64 - 70.
Proof.
  destruct (delta_recovers_after_rollback exampleLoop (Ok [mkIO "eth0" 10 0])
              (Ok [mkIO "eth0" 30 0]) (mkIO "eth0" 10 0) (mkIO "eth0" 30 0))
    as (H1 & H2 & _).
  - reflexivity.
  - unfold is_uint64, two64. cbn. lia.
  - unfold is_uint64, two64. cbn. lia.
  - unfold is_uint64, two64. cbn. lia.
  - cbn. lia.
  - split; [exact H1|]. apply H2. cbn. lia.
Defined.

(** X18. A first tick that reads the counters of the initial query shows
    zero everywhere: 0 B/s for both speeds and 0 B for sent, received and
    total usage. *)
Theorem first_tick_without_traffic (m : NetworkMonitor) (io cur : IOCountersStat)
    (out : list Output) (log : list string) (os : OSReply) :
  getInterfaceIOCounters os (interfaceName m) = Ok cur ->
  BytesSent cur = BytesSent io -> BytesRecv cur = BytesRecv io ->
  1 <= refreshInterval m <= 3600 -> 0 <= precision m <= 6 ->
  stats (nm (onTick (enter m io out log) os))
  = mkNetStats (interfaceName m)
      (mkSpeed F64.zero "B/s") (mkSpeed F64.zero "B/s")
      (mkUsage F64.zero "B") (mkUsage F64.zero "B") (mkUsage F64.zero "B").
Proof.
  intros Hq Hs Hr Hi Hp.
  rewrite (onTick_ok (enter m io out log) os cur) by exact Hq.
  cbn [nm setStats stats enter]. unfold mkStats, rawTick.
  cbn [enter prevNetIO totalSentStart totalRecvStart sentBytes recvBytes
       totalSent totalRecv].
  rewrite Hs, Hr, !sub64_same. change (add64 0 0) with 0.
  rewrite calculateSpeed_zero by (unfold is_int; lia).
  destruct (smallCheck_sound 0 (precision m) smallCheck_holds) as [Hu _];
    try lia.
  rewrite Hu. reflexivity.
Qed.

Lemma first_tick_without_traffic_witness :
  TotalUsage (stats (nm (onTick exampleLoop (Ok [mkIO "eth0" 100 0]))))
  = mkUsage F64.zero "B".
Proof.
  unfold exampleLoop.
  rewrite (first_tick_without_traffic (NewNetworkMonitor "eth0" 1 2 "json")
             (mkIO "eth0" 100 0) (mkIO "eth0" 100 0) [] [] (Ok [mkIO "eth0" 100 0])).
  - reflexivity.
  - reflexivity.
  - reflexivity.
  - reflexivity.
  - cbn. lia.
  - cbn. lia.
Defined.

End TickEdges.
